(** * A shallow embedding of [pairprog.objectstore] and [pairprog.config]

    The object-store layer of pairprog offers one interface
    ([put]/[get]/[exists]/[delete]/[list]/[sub]) over five backends:
    [LocalObjectStore] (a [shelve] dictionary), [LocalLargeObjectStore],
    [FSObjectStore] (one pickle file per key), [S3ObjectStore] and
    [RedisObjectStore], plus the Redis-backed [RedisQueue].  [get_config]
    merges layered YAML files through [flatten_dict].

    Python strings are modelled as Rocq [string]s (one [ascii] per code
    point, so code points above 255 are outside the model); Python
    exceptions are the constructors of [exn]. *)

From Stdlib Require Import ZArith Lia Bool Ascii String.
From stdpp Require Import base gmap list strings.

Open Scope string_scope.
Set Warnings "-register-all".

(** ** Python string methods used by the source *)
Module PyStr.

(** [c in s] for a one-character needle. *)
Fixpoint has_char (c : ascii) (s : string) : bool :=
  match s with
  | EmptyString => false
  | String a s' => if Ascii.eqb a c then true else has_char c s'
  end.

(** [s.lstrip(c)] *)
Fixpoint lstrip (c : ascii) (s : string) : string :=
  match s with
  | EmptyString => EmptyString
  | String a s' => if Ascii.eqb a c then lstrip c s' else s
  end.

(** [s.rstrip(c)] *)
Fixpoint rstrip (c : ascii) (s : string) : string :=
  match s with
  | EmptyString => EmptyString
  | String a s' =>
      match rstrip c s' with
      | EmptyString => if Ascii.eqb a c then EmptyString else String a EmptyString
      | r => String a r
      end
  end.

(** [s.strip(c)] *)
Definition strip (c : ascii) (s : string) : string := rstrip c (lstrip c s).

(** [s.startswith(p)] *)
Fixpoint startswith (p s : string) : bool :=
  match p, s with
  | EmptyString, _ => true
  | String a p', String b s' => Ascii.eqb a b && startswith p' s'
  | String _ _, EmptyString => false
  end.

(** [p in s] for two strings: [p] occurs in [s]. *)
Fixpoint contains (p s : string) : bool :=
  startswith p s ||
  match s with
  | EmptyString => false
  | String _ s' => contains p s'
  end.

(** [s.removeprefix(p)] *)
Definition removeprefix (p s : string) : string :=
  if startswith p s then substring (String.length p) (String.length s - String.length p) s
  else s.

(** [s.endswith(x)] *)
Definition endswith (x s : string) : bool :=
  (String.length x <=? String.length s)%nat &&
  String.eqb (substring (String.length s - String.length x) (String.length x) s) x.

(** [s[:-1]] *)
Definition drop_last (s : string) : string := substring 0 (String.length s - 1) s.

(** [sep.join(l)] *)
Fixpoint join (sep : string) (l : list string) : string :=
  match l with
  | [] => EmptyString
  | [x] => x
  | x :: l' => x ++ sep ++ join sep l'
  end.

(** [s.split(c)] for a one-character separator: always at least one part. *)
Fixpoint split (c : ascii) (s : string) : list string :=
  match s with
  | EmptyString => [EmptyString]
  | String a s' =>
      match split c s' with
      | [] => [EmptyString]
      | p :: ps => if Ascii.eqb a c then EmptyString :: p :: ps else String a p :: ps
      end
  end.

(** [s.replace(old, new)]: leftmost, non-overlapping occurrences. *)
Fixpoint replace_fuel (fuel : nat) (old new s : string) : string :=
  match fuel with
  | O => s
  | S fuel' =>
      if startswith old s then
        new ++ replace_fuel fuel' old new
                 (substring (String.length old) (String.length s - String.length old) s)
      else match s with
           | EmptyString => EmptyString
           | String a s' => String a (replace_fuel fuel' old new s')
           end
  end.

Fixpoint replace_empty (new s : string) : string :=
  match s with
  | EmptyString => new
  | String a s' => new ++ String a (replace_empty new s')
  end.

Definition replace (old new s : string) : string :=
  if String.eqb old "" then replace_empty new s
  else replace_fuel (S (String.length s)) old new s.

End PyStr.

Definition slash : ascii := "/"%char.

(** ** Key namespace: [ObjectStore.join_path]

<<
    def join_path(self, *args):
        args = [self.prefix] + list(args)
        args = [e.strip("/") for e in args if e]
        args = [e for e in args if e]
        return "/".join(args)
>>
    A [None] prefix (possible on [RedisObjectStore]) is dropped by
    [if e] exactly as [""] is, so the prefix is passed as a string with
    [None] written as [""]. *)
Definition truthy (s : string) : bool := negb (String.eqb s "").

Definition join_path (prefix : string) (args : list string) : string :=
  let l := map (PyStr.strip slash) (filter truthy (prefix :: args)) in
  PyStr.join "/" (filter truthy l).

Example join_path_ex1 : join_path "/a/" ["b"; "c/"] = "a/b/c".
Proof. reflexivity. Qed.
Example join_path_ex2 : join_path "" ["x//y"] = "x//y".
Proof. reflexivity. Qed.
Example replace_ex : PyStr.replace "b/p" "" "b/p/x/b/p" = "/x/".
Proof. reflexivity. Qed.
Example split_ex : PyStr.split "."%char "a..b" = ["a"; ""; "b"].
Proof. reflexivity. Qed.

(** ** Python values, byte strings and exceptions *)

(** The Python values that reach the stores.  [PDict] keys are distinct,
    as in a Python [dict]. *)
Inductive pyval :=
| PNone
| PBool (b : bool)
| PInt (z : Z)
| PStr (s : string)
| PBytes (b : list Byte.byte)
| PList (l : list pyval)
| PTuple (l : list pyval)
| PDict (kv : list (string * pyval))
| PSet (l : list pyval).

(** A byte string as stored by a backend, named by the encoder that produced
    it: raw bytes, the UTF-8 encoding of a [str], or [pickle.dumps(v)].
    Decoding with the matching decoder gives the value back
    ([pickle.loads(pickle.dumps(v)) == v]); bytes fed to a decoder other than
    the one that produced them are treated as undecodable. *)
Inductive blob :=
| BlobRaw (b : list Byte.byte)
| BlobUtf8 (s : string)
| BlobPickle (v : pyval).

(** Structural equality of values, hence of [pickle.dumps] byte strings:
    [pickle] is taken to be deterministic and injective on [pyval]. *)
Fixpoint pyval_eq_dec (x y : pyval) {struct x} : {x = y} + {x <> y}.
Proof.
  refine (match x, y with
  | PNone, PNone => left eq_refl
  | PBool a, PBool b => match decide (a = b) with left H => left _ | right H => right _ end
  | PInt a, PInt b => match decide (a = b) with left H => left _ | right H => right _ end
  | PStr a, PStr b => match decide (a = b) with left H => left _ | right H => right _ end
  | PBytes a, PBytes b =>
      match List.list_eq_dec Byte.byte_eq_dec a b with left H => left _ | right H => right _ end
  | PList a, PList b =>
      match @List.list_eq_dec _ pyval_eq_dec a b with left H => left _ | right H => right _ end
  | PTuple a, PTuple b =>
      match @List.list_eq_dec _ pyval_eq_dec a b with left H => left _ | right H => right _ end
  | PSet a, PSet b =>
      match @List.list_eq_dec _ pyval_eq_dec a b with left H => left _ | right H => right _ end
  | PDict a, PDict b =>
      match @List.list_eq_dec _ (fun p q => @prod_eq_dec _ _ _ pyval_eq_dec p q) a b with
      | left H => left _
      | right H => right _
      end
  | _, _ => right _
  end); congruence.
Defined.

#[global] Instance pyval_eqdec : EqDecision pyval := pyval_eq_dec.

(** Induction on values through the items of lists, tuples and sets. *)
Fixpoint pyval_coll_ind (P : pyval -> Prop) (H0 : P PNone) (H1 : forall b, P (PBool b))
    (H2 : forall z, P (PInt z)) (H3 : forall s, P (PStr s)) (H4 : forall b, P (PBytes b))
    (H5 : forall l, Forall P l -> P (PList l)) (H6 : forall l, Forall P l -> P (PTuple l))
    (H7 : forall kv, P (PDict kv)) (H8 : forall l, Forall P l -> P (PSet l)) (v : pyval) : P v :=
  match v with
  | PNone => H0
  | PBool b => H1 b
  | PInt z => H2 z
  | PStr s => H3 s
  | PBytes b => H4 b
  | PList l =>
      H5 l ((fix go (l : list pyval) : Forall P l :=
               match l with
               | [] => @List.Forall_nil _ _
               | x :: l' => @List.Forall_cons _ P x l'
                              (pyval_coll_ind P H0 H1 H2 H3 H4 H5 H6 H7 H8 x) (go l')
               end) l)
  | PTuple l =>
      H6 l ((fix go (l : list pyval) : Forall P l :=
               match l with
               | [] => @List.Forall_nil _ _
               | x :: l' => @List.Forall_cons _ P x l'
                              (pyval_coll_ind P H0 H1 H2 H3 H4 H5 H6 H7 H8 x) (go l')
               end) l)
  | PDict kv => H7 kv
  | PSet l =>
      H8 l ((fix go (l : list pyval) : Forall P l :=
               match l with
               | [] => @List.Forall_nil _ _
               | x :: l' => @List.Forall_cons _ P x l'
                              (pyval_coll_ind P H0 H1 H2 H3 H4 H5 H6 H7 H8 x) (go l')
               end) l)
  end.

Definition blob_eq_dec (x y : blob) : {x = y} + {x <> y}.
Proof.
  destruct x as [a|a|a], y as [b|b|b]; try (right; congruence).
  - destruct (List.list_eq_dec Byte.byte_eq_dec a b); [left|right]; congruence.
  - destruct (decide (a = b)); [left|right]; congruence.
  - destruct (decide (a = b)); [left|right]; congruence.
Defined.

#[global] Instance blob_eqdec : EqDecision blob := blob_eq_dec.

Inductive exn :=
| KeyError
| ValueError
| TypeError
| AttributeError
| IOError
| DecodeError
| FileNotFoundError
| FileExistsError
| IsADirectoryError
| NotADirectoryError
| ResponseError
| EOFError
| ZlibError
| BadGzipFile
| AssertionError.

Inductive result (A : Type) :=
| Ok (a : A)
| Err (e : exn).
Arguments Ok {A} a.
Arguments Err {A} e.

(** [pickle.loads] *)
Definition pickle_loads (b : blob) : result pyval :=
  match b with
  | BlobPickle v => Ok v
  | _ => Err DecodeError
  end.

(** ** Filesystem paths ([pathlib]) *)
Module PathLib.

(** [PurePosixPath(s).parts]: empty and ["."] components are dropped; a
    leading ["/"] (or exactly two slashes, ["//"]) is the root part. *)
Definition segs (s : string) : list string :=
  filter (fun x => truthy x && negb (String.eqb x ".")) (PyStr.split slash s).

Definition parts (s : string) : list string :=
  if PyStr.startswith "//" s && negb (PyStr.startswith "///" s) then "//" :: segs s
  else if PyStr.startswith "/" s then "/" :: segs s
  else segs s.

(** [Path(base).joinpath(s)]: an absolute [s] replaces [base]. *)
Definition joinpath (base : list string) (s : string) : list string :=
  if PyStr.startswith "/" s then parts s else base ++ parts s.

(** [str(PurePosixPath( *ps))] for a relative path. *)
Definition to_str (ps : list string) : string :=
  match ps with
  | [] => "."
  | _ => PyStr.join "/" ps
  end.

(** The object the operating system reaches through a path: [".."] removes
    the previous component (symbolic links are not modelled), ["//"] is the
    root. *)
Fixpoint resolve_acc (acc : list string) (ps : list string) : list string :=
  match ps with
  | [] => rev acc
  | p :: ps' =>
      if String.eqb p ".." then
        match acc with
        | [] => resolve_acc [".."] ps'
        | q :: acc' =>
            if String.eqb q "/" then resolve_acc acc ps'
            else if String.eqb q ".." then resolve_acc (".." :: acc) ps'
            else resolve_acc acc' ps'
        end
      else if String.eqb p "//" then resolve_acc ["/"] ps'
      else resolve_acc (p :: acc) ps'
  end.

Definition resolve (ps : list string) : list string := resolve_acc [] ps.

(** The root, the working directory and its ancestors always exist. *)
Definition always_dir (r : list string) : bool :=
  forallb (fun x => String.eqb x "..") r || bool_decide (r = ["/"]).

Example parts_ex : joinpath (parts "/data") "b/./c//d" = ["/"; "data"; "b"; "c"; "d"].
Proof. reflexivity. Qed.
Example resolve_ex : resolve ["a"; ".."; "b"] = ["b"].
Proof. reflexivity. Qed.

End PathLib.

(** ** The world the stores act on

    The local filesystem (as resolved paths), the [shelve] databases (by the
    resolved path given to [shelve.open]; they are kept apart from the
    file nodes), the buckets of the object-storage service and the
    key space of the Redis server. *)
Inductive fsnode :=
| FFile (b : blob)
| FDir.

Record s3obj := S3Obj {
  s3_content_type : string;
  s3_content_encoding : option string;
  s3_body : blob
}.

Inductive rval :=
| RVString (b : blob)
| RVList (l : list blob)
| RVSet (l : list blob).

Record world := World {
  w_fs : gmap (list string) fsnode;
  w_shelves : gmap (list string) (gmap string pyval);
  w_s3 : gmap (string * string) s3obj;
  w_redis : gmap string rval
}.

Definition set_fs (f : gmap (list string) fsnode) (w : world) : world :=
  World f (w_shelves w) (w_s3 w) (w_redis w).
Definition set_shelves (s : gmap (list string) (gmap string pyval)) (w : world) : world :=
  World (w_fs w) s (w_s3 w) (w_redis w).
Definition set_s3 (o : gmap (string * string) s3obj) (w : world) : world :=
  World (w_fs w) (w_shelves w) o (w_redis w).
Definition set_redis (r : gmap string rval) (w : world) : world :=
  World (w_fs w) (w_shelves w) (w_s3 w) r.

Definition empty_world : world := World ∅ ∅ ∅ ∅.

(** A Python call: it reads and updates the world and returns or raises;
    what it changed before raising stays changed. *)
Definition M (A : Type) : Type := world -> result A * world.

Definition ret {A} (a : A) : M A := fun w => (Ok a, w).
Definition raise {A} (e : exn) : M A := fun w => (Err e, w).
Definition bind {A B} (m : M A) (f : A -> M B) : M B :=
  fun w => match m w with
           | (Ok a, w') => f a w'
           | (Err e, w') => (Err e, w')
           end.
(** Reading the world without changing it (e.g. running a generator). *)
Definition observe {A} (f : world -> A) : M A := fun w => (Ok (f w), w).
Definition lift {A} (r : result A) : M A :=
  match r with Ok a => ret a | Err e => raise e end.

Notation "'let*' x ':=' c1 'in' c2" := (bind c1 (fun x => c2))
  (at level 200, x name, c1 at level 100, c2 at level 200).

(** ** Filesystem primitives ([os] / [pathlib]) *)
Module FS.
Import PathLib.

Definition is_root (r : string) : bool := String.eqb r "/" || String.eqb r "//".

(** [Path.parent]: the root and ["."] are their own parent. *)
Definition parent (ps : list string) : list string :=
  match ps with
  | [r] => if is_root r then ps else []
  | _ => removelast ps
  end.

Definition node (w : world) (p : list string) : option fsnode := w_fs w !! resolve p.

Definition is_dir_at (w : world) (p : list string) : bool :=
  always_dir (resolve p) ||
  match node w p with Some FDir => true | _ => false end.

(** [Path.exists]: [os.stat] succeeds. *)
Definition exists_at (w : world) (p : list string) : bool :=
  always_dir (resolve p) || bool_decide (is_Some (node w p)).

(** The error of a system call on a path that is not there: [ENOTDIR]
    when the parent is a file, [ENOENT] otherwise. *)
Definition missing_err (w : world) (p : list string) : exn :=
  match node w (parent p) with
  | Some (FFile _) => NotADirectoryError
  | _ => FileNotFoundError
  end.

Definition exists_ (p : list string) : M bool := fun w => (Ok (exists_at w p), w).

(** [os.mkdir(p)] *)
Definition os_mkdir (p : list string) : M unit := fun w =>
  if exists_at w p then (Err FileExistsError, w)
  else if negb (exists_at w (parent p)) then (Err FileNotFoundError, w)
  else if negb (is_dir_at w (parent p)) then (Err NotADirectoryError, w)
  else (Ok tt, set_fs (<[resolve p := FDir]> (w_fs w)) w).

(** [Path.mkdir(parents, exist_ok)]:
<<
        try:
            os.mkdir(self, mode)
        except FileNotFoundError:
            if not parents or self.parent == self:
                raise
            self.parent.mkdir(parents=True, exist_ok=True)
            self.mkdir(mode, parents=False, exist_ok=exist_ok)
        except OSError:
            if not exist_ok or not self.is_dir():
                raise
>> *)
Fixpoint mkdir_fuel (fuel : nat) (p : list string) (parents exist_ok : bool) : M unit :=
  fun w =>
    match os_mkdir p w with
    | (Ok tt, w') => (Ok tt, w')
    | (Err FileNotFoundError, w') =>
        if negb parents || bool_decide (parent p = p) then (Err FileNotFoundError, w')
        else match fuel with
             | O => (Err FileNotFoundError, w')
             | S fuel' =>
                 bind (mkdir_fuel fuel' (parent p) true true)
                      (fun _ => mkdir_fuel fuel' p false exist_ok) w'
             end
    | (Err e, w') => if exist_ok && is_dir_at w' p then (Ok tt, w') else (Err e, w')
    end.

Definition mkdir (p : list string) (parents : bool) : M unit :=
  mkdir_fuel (S (length p)) p parents false.

(** [Path.write_bytes(b)]: [open(p, "wb")]. *)
Definition write_bytes (p : list string) (b : blob) : M unit := fun w =>
  if is_dir_at w p then (Err IsADirectoryError, w)
  else if negb (exists_at w (parent p)) then (Err FileNotFoundError, w)
  else if negb (is_dir_at w (parent p)) then (Err NotADirectoryError, w)
  else (Ok tt, set_fs (<[resolve p := FFile b]> (w_fs w)) w).

(** [Path.read_bytes()] *)
Definition read_bytes (p : list string) : M blob := fun w =>
  if is_dir_at w p then (Err IsADirectoryError, w)
  else match node w p with
       | Some (FFile b) => (Ok b, w)
       | _ => (Err (missing_err w p), w)
       end.

(** [Path.unlink()]: [unlink(2)] refuses a directory with [EISDIR]. *)
Definition unlink (p : list string) : M unit := fun w =>
  if is_dir_at w p then (Err IsADirectoryError, w)
  else match node w p with
       | Some (FFile _) => (Ok tt, set_fs (delete (resolve p) (w_fs w)) w)
       | _ => (Err (missing_err w p), w)
       end.

End FS.

(** ** [shelve] databases *)
Module Shelf.

(** [shelve.open(path)] (flag ["c"]): creates an empty database if none. *)
Definition open_ (sp : list string) : M (gmap string pyval) := fun w =>
  let r := PathLib.resolve sp in
  match w_shelves w !! r with
  | Some db => (Ok db, w)
  | None => (Ok ∅, set_shelves (<[r := ∅]> (w_shelves w)) w)
  end.

(** Writing the database back when the [with] block closes. *)
Definition close (sp : list string) (db : gmap string pyval) : M unit := fun w =>
  (Ok tt, set_shelves (<[PathLib.resolve sp := db]> (w_shelves w)) w).

End Shelf.

(** ** The object-storage service (boto3 client calls) *)
Module S3.

Definition get_object (bucket key : string) : M (option s3obj) := fun w =>
  (Ok (w_s3 w !! (bucket, key)), w).

Definition put_object (bucket key : string) (o : s3obj) : M unit := fun w =>
  (Ok tt, set_s3 (<[(bucket, key) := o]> (w_s3 w)) w).

(** [DeleteObject] succeeds whether or not the key exists. *)
Definition delete_object (bucket key : string) : M unit := fun w =>
  (Ok tt, set_s3 (delete (bucket, key) (w_s3 w)) w).

(** The keys of [bucket] that start with [prefix], over all pages of
    [list_objects]. *)
Definition list_keys (w : world) (bucket prefix : string) : list string :=
  map (fun kv => kv.1.2)
      (filter (fun kv => kv.1.1 = bucket /\ PyStr.startswith prefix kv.1.2 = true)
              (map_to_list (w_s3 w))).

End S3.

(** ** The Redis server *)
Module Redis.

(** Redis glob matching ([stringmatchlen]), used by [SCAN MATCH]. *)
Definition in_range (a b c : ascii) : bool :=
  let (lo, hi) := if (nat_of_ascii b <? nat_of_ascii a)%nat then (b, a) else (a, b) in
  (nat_of_ascii lo <=? nat_of_ascii c)%nat && (nat_of_ascii c <=? nat_of_ascii hi)%nat.

(** The body of a [[...]] class: whether [c] is in it, and the pattern after
    the closing bracket (an unterminated class runs to the end). *)
Fixpoint class_scan (p : list ascii) (c : ascii) (m : bool) : bool * list ascii :=
  match p with
  | [] => (m, [])
  | "\"%char :: x :: p' => class_scan p' c (m || Ascii.eqb x c)
  | "]"%char :: p' => (m, p')
  | a :: "-"%char :: b :: p' => class_scan p' c (m || in_range a b c)
  | a :: p' => class_scan p' c (m || Ascii.eqb a c)
  end.

Fixpoint skip_stars (p : list ascii) : list ascii :=
  match p with
  | "*"%char :: p' => skip_stars p'
  | _ => p
  end.

Fixpoint suffixes (s : list ascii) : list (list ascii) :=
  match s with
  | [] => []
  | _ :: s' => s :: suffixes s'
  end.

Fixpoint gmatch (fuel : nat) (p s : list ascii) : bool :=
  match fuel with
  | O => false
  | S f =>
      let continue_ p1 s1 :=
        match s1 with
        | [] => match skip_stars p1 with [] => true | _ => false end
        | _ => gmatch f p1 s1
        end in
      match p, s with
      | [], [] => true
      | [], _ :: _ => false
      | _ :: _, [] => false
      | "*"%char :: p', _ =>
          match skip_stars p' with
          | [] => true
          | p'' => existsb (gmatch f p'') (suffixes s)
          end
      | "?"%char :: p', _ :: s' => continue_ p' s'
      | "["%char :: p', c :: s' =>
          let (neg, body) := match p' with
                             | "^"%char :: b => (true, b)
                             | _ => (false, p')
                             end in
          let (m, rest) := class_scan body c false in
          if xorb neg m then continue_ rest s' else false
      | "\"%char :: x :: p', c :: s' => if Ascii.eqb x c then continue_ p' s' else false
      | x :: p', c :: s' => if Ascii.eqb x c then continue_ p' s' else false
      end
  end.

Definition matches (pat key : string) : bool :=
  let p := list_ascii_of_string pat in
  let s := list_ascii_of_string key in
  gmatch (S (length p + length s)) p s.

Example matches_ex1 : matches "b/*" "b/x/1" = true.
Proof. reflexivity. Qed.
Example matches_ex2 : matches "b/[a-c]?" "b/bz" = true.
Proof. reflexivity. Qed.
Example matches_ex3 : matches "b/*" "c/x" = false.
Proof. reflexivity. Qed.

(** [GET] *)
Definition get (k : string) : M (option blob) := fun w =>
  match w_redis w !! k with
  | None => (Ok None, w)
  | Some (RVString b) => (Ok (Some b), w)
  | Some _ => (Err ResponseError, w)
  end.

(** [SET] *)
Definition set (k : string) (b : blob) : M unit := fun w =>
  (Ok tt, set_redis (<[k := RVString b]> (w_redis w)) w).

(** [EXISTS] answers the number of the given keys that exist. *)
Definition exists_ (k : string) : M Z := fun w =>
  (Ok (if bool_decide (is_Some (w_redis w !! k)) then 1 else 0)%Z, w).

(** [DEL] answers the number of keys removed. *)
Definition del (k : string) : M Z := fun w =>
  (Ok (if bool_decide (is_Some (w_redis w !! k)) then 1 else 0)%Z,
   set_redis (delete k (w_redis w)) w).

(** [scan_iter(match=pat)]: every key matching the pattern. *)
Definition scan (w : world) (pat : string) : list string :=
  filter (fun k => matches pat k = true) (map fst (map_to_list (w_redis w))).

(** [LPUSH] of one element: the new length. *)
Definition lpush (k : string) (b : blob) : M Z := fun w =>
  match w_redis w !! k with
  | None => (Ok 1%Z, set_redis (<[k := RVList [b]]> (w_redis w)) w)
  | Some (RVList l) =>
      (Ok (Z.of_nat (S (length l))), set_redis (<[k := RVList (b :: l)]> (w_redis w)) w)
  | Some _ => (Err ResponseError, w)
  end.

(** The index window of [LRANGE]/[LTRIM] ([start], [stop] inclusive,
    negative indices from the end); [None] when it is empty. *)
Definition window (len start stop : Z) : option (Z * Z) :=
  let start := if (start <? 0)%Z then (len + start)%Z else start in
  let stop := if (stop <? 0)%Z then (len + stop)%Z else stop in
  let start := if (start <? 0)%Z then 0%Z else start in
  if (start >? stop)%Z || (start >=? len)%Z then None
  else Some (start, if (stop >=? len)%Z then (len - 1)%Z else stop).

Definition slice {A} (l : list A) (len start stop : Z) : list A :=
  match window len start stop with
  | None => []
  | Some (a, b) => firstn (Z.to_nat (b - a + 1)) (skipn (Z.to_nat a) l)
  end.

(** [LTRIM]: an empty result removes the key. *)
Definition ltrim (k : string) (start stop : Z) : M unit := fun w =>
  match w_redis w !! k with
  | None => (Ok tt, w)
  | Some (RVList l) =>
      match slice l (Z.of_nat (length l)) start stop with
      | [] => (Ok tt, set_redis (delete k (w_redis w)) w)
      | l' => (Ok tt, set_redis (<[k := RVList l']> (w_redis w)) w)
      end
  | Some _ => (Err ResponseError, w)
  end.

(** [LRANGE] *)
Definition lrange (k : string) (start stop : Z) : M (list blob) := fun w =>
  match w_redis w !! k with
  | None => (Ok [], w)
  | Some (RVList l) => (Ok (slice l (Z.of_nat (length l)) start stop), w)
  | Some _ => (Err ResponseError, w)
  end.

(** How Redis holds a list: an empty list is no key at all. *)
Definition list_at (l : list blob) : option rval :=
  match l with [] => None | _ => Some (RVList l) end.

(** Likewise for a set: an empty set is no key. *)
Definition set_at (l : list blob) : option rval :=
  match l with [] => None | _ => Some (RVSet l) end.

(** [LPOP]: the first element; a list left empty is removed. *)
Definition lpop (k : string) : M (option blob) := fun w =>
  match w_redis w !! k with
  | None => (Ok None, w)
  | Some (RVList []) => (Ok None, w)
  | Some (RVList (x :: l')) =>
      (Ok (Some x), set_redis (match l' with
                               | [] => delete k (w_redis w)
                               | _ => <[k := RVList l']> (w_redis w)
                               end) w)
  | Some _ => (Err ResponseError, w)
  end.

(** [RPOP]: the last element; a list left empty is removed. *)
Definition rpop (k : string) : M (option blob) := fun w =>
  match w_redis w !! k with
  | None => (Ok None, w)
  | Some (RVList l) =>
      match last l with
      | None => (Ok None, w)
      | Some x =>
          (Ok (Some x), set_redis (match removelast l with
                                   | [] => delete k (w_redis w)
                                   | l' => <[k := RVList l']> (w_redis w)
                                   end) w)
      end
  | Some _ => (Err ResponseError, w)
  end.

(** [LLEN] *)
Definition llen (k : string) : M Z := fun w =>
  match w_redis w !! k with
  | None => (Ok 0%Z, w)
  | Some (RVList l) => (Ok (Z.of_nat (length l)), w)
  | Some _ => (Err ResponseError, w)
  end.

(** [LINDEX]: negative indices count from the end; out of range is nil. *)
Definition lindex (k : string) (i : Z) : M (option blob) := fun w =>
  match w_redis w !! k with
  | None => (Ok None, w)
  | Some (RVList l) =>
      let j := if (i <? 0)%Z then (Z.of_nat (length l) + i)%Z else i in
      if (j <? 0)%Z then (Ok None, w) else (Ok (l !! Z.to_nat j), w)
  | Some _ => (Err ResponseError, w)
  end.

(** [SADD] of one member: [1] if it was added, [0] if already there. *)
Definition sadd (k : string) (b : blob) : M Z := fun w =>
  match w_redis w !! k with
  | None => (Ok 1%Z, set_redis (<[k := RVSet [b]]> (w_redis w)) w)
  | Some (RVSet l) =>
      if decide (b ∈ l) then (Ok 0%Z, w)
      else (Ok 1%Z, set_redis (<[k := RVSet (l ++ [b])%list]> (w_redis w)) w)
  | Some _ => (Err ResponseError, w)
  end.

(** [SREM] of one member; a set left empty is removed. *)
Definition srem (k : string) (b : blob) : M Z := fun w =>
  match w_redis w !! k with
  | None => (Ok 0%Z, w)
  | Some (RVSet l) =>
      if decide (b ∈ l) then
        (Ok 1%Z, set_redis (match filter (fun x => x <> b) l with
                            | [] => delete k (w_redis w)
                            | l' => <[k := RVSet l']> (w_redis w)
                            end) w)
      else (Ok 0%Z, w)
  | Some _ => (Err ResponseError, w)
  end.

(** [SISMEMBER] *)
Definition sismember (k : string) (b : blob) : M Z := fun w =>
  match w_redis w !! k with
  | None => (Ok 0%Z, w)
  | Some (RVSet l) => (Ok (if decide (b ∈ l) then 1 else 0)%Z, w)
  | Some _ => (Err ResponseError, w)
  end.

(** [SCARD] *)
Definition scard (k : string) : M Z := fun w =>
  match w_redis w !! k with
  | None => (Ok 0%Z, w)
  | Some (RVSet l) => (Ok (Z.of_nat (length l)), w)
  | Some _ => (Err ResponseError, w)
  end.

(** [SMEMBERS] *)
Definition smembers (k : string) : M (list blob) := fun w =>
  match w_redis w !! k with
  | None => (Ok [], w)
  | Some (RVSet l) => (Ok l, w)
  | Some _ => (Err ResponseError, w)
  end.

(** [SMOVE src dst member]: both keys must hold sets (or nothing); nothing
    moves when [member] is not in [src]; with [src = dst] nothing changes. *)
Definition smove (src dst : string) (b : blob) : M Z := fun w =>
  let is_set k := match w_redis w !! k with
                  | None | Some (RVSet _) => true
                  | Some _ => false
                  end in
  if negb (is_set src && is_set dst) then (Err ResponseError, w)
  else
    match w_redis w !! src with
    | Some (RVSet l) =>
        if decide (b ∈ l) then
          if String.eqb src dst then (Ok 1%Z, w)
          else bind (srem src b) (fun _ => bind (sadd dst b) (fun _ => ret 1%Z)) w
        else (Ok 0%Z, w)
    | _ => (Ok 0%Z, w)
    end.

End Redis.

(** ** Library functions the stores call

    [slugify] (python-slugify), [gzip.decompress] ([Err e]: the exception
    it raises, such as [BadGzipFile] for a bad header, [EOFError] for a
    truncated stream or [zlib.error] for corrupt data), [json.dumps] ([None]: [TypeError], the value is not
    JSON-serialisable), [json.loads] ([None]: malformed JSON) and the length
    of [pickle.dumps(v)].  The theorems hold for every implementation. *)
Record PyLib := {
  slugify : string -> string;
  gzip_decompress : list Byte.byte -> result (list Byte.byte);
  json_dumps : pyval -> option string;
  json_loads : string -> option pyval;
  pickle_size : pyval -> nat
}.

(** ** The codec: [_to_bytes]

    Returns the stored bytes, the size and the content type (the extension
    is always [""]).  The [PosixPath] and file-like branches take values that
    [pyval] does not contain. *)
Definition to_bytes (lib : PyLib) (o : pyval) : blob * nat * string :=
  match o with
  | PStr s => (BlobUtf8 s, String.length s, "text/plain; charset=utf-8")
  | PBytes b => (BlobRaw b, length b, "application/octet-stream")
  | _ =>
      match json_dumps lib o with
      | Some t => (BlobUtf8 t, String.length t, "application/json")
      | None => (BlobPickle o, pickle_size lib o, "application/x-pickle")
      end
  end.

(** ** Store handles *)
Inductive kind :=
| LocalObjectStore
| LocalLargeObjectStore
| FSObjectStore
| S3ObjectStore
| RedisObjectStore.

(** [(bucket, prefix)] plus the local [path] argument of the disk backends
    ([""] elsewhere) and whether [self.config] holds a [class_] entry,
    which decides what [ObjectStore.sub] builds. *)
Record store := Store {
  st_kind : kind;
  st_bucket : string;
  st_prefix : string;
  st_path : string;
  st_has_class : bool
}.

(** [self.path = str(Path(path) / self.bucket)] of the disk backends. *)
Definition store_path (S : store) : list string :=
  PathLib.joinpath (PathLib.parts (st_path S)) (st_bucket S).

(** [self.join_path(key)] *)
Definition skey (S : store) (k : string) : string := join_path (st_prefix S) [k].

(** [self.join_pathb(key)] *)
Definition join_pathb (S : store) (k : string) : string := st_bucket S ++ "/" ++ skey S k.

Section Backends.
Context (lib : PyLib).

(** *** [LocalObjectStore] *)

Definition local_put (S : store) (k : string) (v : pyval) : M unit :=
  let* db := Shelf.open_ (store_path S) in
  Shelf.close (store_path S) (<[skey S k := v]> db).

Definition local_get (S : store) (k : string) : M pyval :=
  let* db := Shelf.open_ (store_path S) in
  match db !! skey S k with
  | Some v => ret v
  | None => raise KeyError
  end.

Definition local_exists (S : store) (k : string) : M bool :=
  let* db := Shelf.open_ (store_path S) in
  ret (bool_decide (is_Some (db !! skey S k))).

Definition local_delete (S : store) (k : string) : M unit :=
  let* db := Shelf.open_ (store_path S) in
  match db !! skey S k with
  | Some _ => Shelf.close (store_path S) (delete (skey S k) db)
  | None => raise KeyError
  end.

(** [list]: the keys of the database that start with
    [self.join_path(prefix) + "/"], with that part removed. *)
Definition local_list (S : store) (p : string) (w : world) : list string :=
  let pre := join_path (st_prefix S) [p] ++ "/" in
  let keys := match w_shelves w !! PathLib.resolve (store_path S) with
              | Some db => map fst (map_to_list db)
              | None => []
              end in
  map (PyStr.removeprefix pre) (filter (fun k => PyStr.startswith pre k = true) keys).

(** *** [LocalLargeObjectStore]

<<
    def put(self, key: str, data: bytes):
        b, size, content_type, ext = _to_bytes(data)
        if size > 1024 * 1024 * 10:
            file_path = Path(self.path).joinpath(slugify(key))
            if not file_path.parent.exists():
                file_path.parent.mkdir(parents=True)
            file_path.write_bytes(pickle.dumps(data))
            data = file_path
>>
    [get] is [LocalObjectStore.get] followed by an [isinstance(o, PosixPath)]
    test that no [pyval] passes. *)
Definition large_file (S : store) (k : string) : list string :=
  PathLib.joinpath (store_path S) (slugify lib k).

Definition large_put (S : store) (k : string) (v : pyval) : M unit :=
  let '(_, size, _) := to_bytes lib v in
  if (1024 * 1024 * 10 <? size)%nat then
    let fp := large_file S k in
    let* e := FS.exists_ (FS.parent fp) in
    let* _ := (if e then ret tt else FS.mkdir (FS.parent fp) true) in
    FS.write_bytes fp (BlobPickle v)
  else ret tt.

Definition large_delete (S : store) (k : string) : M unit :=
  let fp := large_file S k in
  let* e := FS.exists_ fp in
  let* _ := (if e then FS.unlink fp else ret tt) in
  local_delete S k.

(** *** [FSObjectStore]: [_file_path(key) = Path(self.path).joinpath(key)] *)
Definition fs_file_path (S : store) (k : string) : list string :=
  PathLib.joinpath (store_path S) k.

Definition fs_put (S : store) (k : string) (v : pyval) : M unit :=
  let fp := fs_file_path S k in
  let* e := FS.exists_ (FS.parent fp) in
  let* _ := (if e then ret tt else FS.mkdir (FS.parent fp) true) in
  FS.write_bytes fp (BlobPickle v).

Definition fs_exists (S : store) (k : string) : M bool := FS.exists_ (fs_file_path S k).

Definition fs_get (S : store) (k : string) : M pyval :=
  let* e := fs_exists S k in
  if negb e then raise KeyError
  else let* b := FS.read_bytes (fs_file_path S k) in
       lift (pickle_loads b).

Definition fs_delete (S : store) (k : string) : M unit := FS.unlink (fs_file_path S k).

End Backends.

(** A Python generator consumed to the end: the values it yields, and the
    exception that stopped it, if any. *)
Fixpoint gen_map {A B} (f : A -> result B) (l : list A) : list B * option exn :=
  match l with
  | [] => ([], None)
  | a :: l' =>
      match f a with
      | Ok b => let '(bs, e) := gen_map f l' in (b :: bs, e)
      | Err e => ([], Some e)
      end
  end.

Section Backends2.
Context (lib : PyLib).

(** [FSObjectStore.list]:
<<
        path = Path(self.path)
        for file_path in path.joinpath(prefix).glob("**/*"):
            yield str(file_path.relative_to(path))
>>
    [glob("**/*")] yields every file and directory strictly below the
    searched directory, as that directory's path followed by the relative
    part; [relative_to] compares parts and raises [ValueError] when [path]
    is not a leading part. *)
Definition fs_relative_to (base ps : list string) : result string :=
  if bool_decide (base `prefix_of` ps) then Ok (PathLib.to_str (drop (length base) ps))
  else Err ValueError.

Definition fs_list (S : store) (p : string) (w : world) : list string * option exn :=
  let base := store_path S in
  let root := PathLib.joinpath base p in
  let r := PathLib.resolve root in
  let below := filter (fun q => r `prefix_of` q /\ length r < length q)
                      (map fst (map_to_list (w_fs w))) in
  gen_map (fun q => fs_relative_to base (root ++ drop (length r) q)) below.

(** *** [S3ObjectStore] *)

Definition s3_put (S : store) (k : string) (v : pyval) : M unit :=
  let '(b, _, ct) := to_bytes lib v in
  S3.put_object (st_bucket S) (skey S k) (S3Obj ct None b).

(** The content-type dispatch of [S3ObjectStore.get]; the first branch
    calls [r.read()] on the response [dict], which has no [read]. *)
Definition s3_decode (key : string) (o : s3obj) : result pyval :=
  let ct := s3_content_type o in
  if String.eqb ct "application/x-gzip" ||
     bool_decide (s3_content_encoding o = Some "gzip") then Err AttributeError
  else if String.eqb ct "application/octet-stream" then
    match s3_body o with
    | BlobRaw b =>
        if PyStr.endswith ".gz" key then
          match gzip_decompress lib b with
          | Ok b' => Ok (PBytes b')
          | Err e => Err e
          end
        else Ok (PBytes b)
    | _ => Err DecodeError
    end
  else if String.eqb ct "text/plain; charset=utf-8" then
    match s3_body o with BlobUtf8 s => Ok (PStr s) | _ => Err DecodeError end
  else if String.eqb ct "text/plain" then
    match s3_body o with
    | BlobUtf8 s =>
        if forallb (fun c => (nat_of_ascii c <? 128)%nat) (list_ascii_of_string s)
        then Ok (PStr s) else Err DecodeError
    | _ => Err DecodeError
    end
  else if String.eqb ct "application/json" then
    match s3_body o with
    | BlobUtf8 s => match json_loads lib s with Some v => Ok v | None => Err ValueError end
    | _ => Err DecodeError
    end
  else if String.eqb ct "application/x-pickle" then pickle_loads (s3_body o)
  else Err IOError.

(** A missing key ([NoSuchKey]) becomes [KeyError]. *)
Definition s3_get (S : store) (k : string) : M pyval :=
  let key := skey S k in
  let* r := S3.get_object (st_bucket S) key in
  match r with
  | None => raise KeyError
  | Some o => lift (s3_decode key o)
  end.

(** [head_object]; any exception gives [False]. *)
Definition s3_exists (S : store) (k : string) : M bool :=
  let* r := S3.get_object (st_bucket S) (skey S k) in
  ret (bool_decide (is_Some r)).

Definition s3_delete (S : store) (k : string) : M unit :=
  S3.delete_object (st_bucket S) (skey S k).

(** The [Prefix] sent to [list_objects]. *)
Definition s3_list_prefix (S : store) (p : string) : string :=
  let pre := join_path (st_prefix S) [p] in
  if PyStr.endswith "*" pre then PyStr.drop_last pre
  else if PyStr.endswith "/" pre then pre
  else pre ++ "/".

Definition s3_list (S : store) (p : string) (w : world) : list string :=
  map (fun key => PyStr.lstrip slash (PyStr.removeprefix (st_prefix S) key))
      (S3.list_keys w (st_bucket S) (s3_list_prefix S p)).

(** *** [RedisObjectStore] *)

Definition redis_put (S : store) (k : string) (v : pyval) : M unit :=
  Redis.set (join_pathb S k) (BlobPickle v).

Definition redis_get (S : store) (k : string) : M pyval :=
  let* d := Redis.get (join_pathb S k) in
  match d with
  | None => raise KeyError
  | Some b => lift (pickle_loads b)
  end.

(** [exists] returns the integer reply of [EXISTS]. *)
Definition redis_exists (S : store) (k : string) : M Z := Redis.exists_ (join_pathb S k).

Definition redis_delete (S : store) (k : string) : M unit :=
  let* _ := Redis.del (join_pathb S k) in ret tt.

(** [list] ignores its [prefix] argument:
<<
        for e in self.client.scan_iter(self.join_pathb("*")):
            yield e.decode("utf8").replace(self.join_pathb(""), "").strip("/")
>> *)
Definition redis_list (S : store) (p : string) (w : world) : list string :=
  map (fun e => PyStr.strip slash (PyStr.replace (join_pathb S "") "" e))
      (Redis.scan w (join_pathb S "*")).

(** ** The uniform interface, dispatched on the class *)

Definition store_put (S : store) (k : string) (v : pyval) : M unit :=
  match st_kind S with
  | LocalObjectStore => local_put S k v
  | LocalLargeObjectStore => large_put lib S k v
  | FSObjectStore => fs_put S k v
  | S3ObjectStore => s3_put S k v
  | RedisObjectStore => redis_put S k v
  end.

Definition store_get (S : store) (k : string) : M pyval :=
  match st_kind S with
  | LocalObjectStore | LocalLargeObjectStore => local_get S k
  | FSObjectStore => fs_get S k
  | S3ObjectStore => s3_get S k
  | RedisObjectStore => redis_get S k
  end.

(** The Python value [exists] returns. *)
Definition store_exists (S : store) (k : string) : M pyval :=
  match st_kind S with
  | LocalObjectStore | LocalLargeObjectStore => let* b := local_exists S k in ret (PBool b)
  | FSObjectStore => let* b := fs_exists S k in ret (PBool b)
  | S3ObjectStore => let* b := s3_exists S k in ret (PBool b)
  | RedisObjectStore => let* n := redis_exists S k in ret (PInt n)
  end.

Definition store_delete (S : store) (k : string) : M unit :=
  match st_kind S with
  | LocalObjectStore => local_delete S k
  | LocalLargeObjectStore => large_delete lib S k
  | FSObjectStore => fs_delete S k
  | S3ObjectStore => s3_delete S k
  | RedisObjectStore => redis_delete S k
  end.

Definition store_list (S : store) (p : string) (w : world) : list string * option exn :=
  match st_kind S with
  | LocalObjectStore | LocalLargeObjectStore => (local_list S p w, None)
  | FSObjectStore => fs_list S p w
  | S3ObjectStore => (s3_list S p w, None)
  | RedisObjectStore => (redis_list S p w, None)
  end.

End Backends2.

(** ** Construction and [sub] *)

(** [ObjectStore.__init__]: [if "_" in bucket: raise ValueError(...)]. *)
Definition objectstore_init (bucket : string) : result unit :=
  if PyStr.has_char "_"%char bucket then Err ValueError else Ok tt.

(** [prefix or ""] *)
Definition prefix_or (prefix : option string) : string :=
  match prefix with Some p => p | None => "" end.

(** The part of [bucket.split("/", 1)] after the first slash. *)
Fixpoint after_slash (s : string) : string :=
  match s with
  | EmptyString => EmptyString
  | String a s' => if Ascii.eqb a slash then s' else after_slash s'
  end.

(** [LocalObjectStore.__init__]: the check of [ObjectStore.__init__], then
    [if not path.exists(): path.mkdir(parents=True)]. *)
Definition local_init (k : kind) (bucket : string) (prefix : option string)
    (path : string) (has_class : bool) : M store :=
  let* _ := lift (objectstore_init bucket) in
  let pp := PathLib.parts path in
  let* e := FS.exists_ pp in
  let* _ := (if e then ret tt else FS.mkdir pp true) in
  ret (Store k bucket (prefix_or prefix) path has_class).

(** The constructor of each class, as [new_object_store] ends up calling it.
    [S3ObjectStore.__init__] splits a ["bucket/prefix"] name but keeps
    [self.bucket] unchanged; its [create_bucket] call and the Redis
    connection pool do not change the modelled world. [RedisObjectStore]
    does not call [super().__init__]. *)
Definition new_store (k : kind) (bucket : string) (prefix : option string)
    (path : string) (has_class : bool) : M store :=
  match k with
  | LocalObjectStore | LocalLargeObjectStore => local_init k bucket prefix path has_class
  | FSObjectStore =>
      let* S := local_init k bucket prefix path has_class in
      let pp := PathLib.parts path in
      let* e := FS.exists_ pp in
      let* _ := (if e then ret tt else FS.mkdir pp true) in
      ret S
  | S3ObjectStore =>
      let* _ := lift (objectstore_init bucket) in
      let pre := prefix_or prefix in
      let pre := if PyStr.has_char slash bucket then
                   match prefix with
                   | None => after_slash bucket
                   | Some _ => after_slash bucket ++ "/" ++ pre
                   end
                 else pre in
      ret (Store S3ObjectStore bucket pre path has_class)
  | RedisObjectStore => ret (Store RedisObjectStore bucket (prefix_or prefix) path has_class)
  end.

(** [sub( *args)] without keyword arguments.  [S3ObjectStore] and
    [RedisObjectStore] rebuild their own class, passing
    [self.prefix if not args else self.join_path( *args)].  The other classes
    use [ObjectStore.sub], which calls [new_object_store] with
    [self.config], bucket and [self.join_path( *args)]: with a [class_]
    entry that class is built again; without one the configuration's
    default profile, whose class is [dflt], is used. *)
Definition store_sub (dflt : kind) (S : store) (args : list string) : M store :=
  let pre := match args with [] => st_prefix S | _ => join_path (st_prefix S) args end in
  match st_kind S with
  | S3ObjectStore => new_store S3ObjectStore (st_bucket S) (Some pre) "" false
  | RedisObjectStore => new_store RedisObjectStore (st_bucket S) (Some pre) "" false
  | k =>
      new_store (if st_has_class S then k else dflt) (st_bucket S)
                (Some (join_path (st_prefix S) args)) (st_path S) true
  end.

(** The entry a key names through a handle. *)
Inductive loc :=
| LShelf (db : list string) (key : string)
| LFile (p : list string)
| LObj (bucket key : string)
| LRedisKey (key : string).

Definition store_loc (S : store) (k : string) : loc :=
  match st_kind S with
  | LocalObjectStore | LocalLargeObjectStore =>
      LShelf (PathLib.resolve (store_path S)) (skey S k)
  | FSObjectStore => LFile (PathLib.resolve (fs_file_path S k))
  | S3ObjectStore => LObj (st_bucket S) (skey S k)
  | RedisObjectStore => LRedisKey (join_pathb S k)
  end.

(** ** [RedisQueue] *)
Module Queue.

(** [self.prefix = os.join_pathb(key)], [self.max_length]. *)
Record queue := MkQueue { q_key : string; q_max_length : option Z }.

Definition redis_queue (S : store) (key : string) (max_length : option Z) : queue :=
  MkQueue (join_pathb S key) max_length.

(** A Redis reply as redis-py returns it. *)
Inductive reply :=
| RNil
| RBulk (b : blob)
| RArray (l : list blob).

(** [_return]: [pickle.loads] accepts bytes only; on a list it raises
    [TypeError], which is printed ([r[:100]] works on a list) and re-raised. *)
Definition return_ (r : reply) : result pyval :=
  match r with
  | RNil => Ok PNone
  | RBulk b => pickle_loads b
  | RArray _ => Err TypeError
  end.

(**
<<
    def push(self, value):
        r = self.redis.lpush(self.prefix, pickle.dumps(value))
        if self.max_length is not None:
            self.redis.ltrim(self.prefix, 0, self.max_length)
        return r
>> *)
Definition push (q : queue) (v : pyval) : M Z :=
  let* r := Redis.lpush (q_key q) (BlobPickle v) in
  let* _ := match q_max_length q with
            | Some m => Redis.ltrim (q_key q) 0 m
            | None => ret tt
            end in
  ret r.

Fixpoint push_all (q : queue) (vs : list pyval) : M unit :=
  match vs with
  | [] => ret tt
  | v :: vs' => let* _ := push q v in push_all q vs'
  end.

(** [peek]: [return self._return(self.redis.lrange(self.prefix, -1, -1))] *)
Definition peek (q : queue) : M pyval :=
  let* l := Redis.lrange (q_key q) (-1) (-1) in
  lift (return_ (RArray l)).

(** The list held at the queue's key ([LLEN] of it is its length). *)
Definition contents (q : queue) (w : world) : list blob :=
  match w_redis w !! q_key q with
  | Some (RVList l) => l
  | _ => []
  end.

(** [_return] of a single reply ([None] or one byte string). *)
Definition return_opt (r : option blob) : result pyval :=
  return_ (match r with None => RNil | Some b => RBulk b end).

(** [unpush]: [self._return(self.redis.lpop(self.prefix))] *)
Definition unpush (q : queue) : M pyval :=
  let* r := Redis.lpop (q_key q) in lift (return_opt r).

(** [pop]: [self._return(self.redis.rpop(self.prefix))] *)
Definition pop (q : queue) : M pyval :=
  let* r := Redis.rpop (q_key q) in lift (return_opt r).

(** [list(q.ipop())]: pop until [pop] returns [None].  Each [pop] that
    returns a value shortens the list, so [length + 1] rounds always reach
    the [None]. *)
Fixpoint ipop_fuel (q : queue) (fuel : nat) : M (list pyval) :=
  match fuel with
  | O => ret []
  | S f =>
      let* v := pop q in
      match v with
      | PNone => ret []
      | _ => let* vs := ipop_fuel q f in ret (v :: vs)
      end
  end.

Definition ipop (q : queue) : M (list pyval) := fun w =>
  ipop_fuel q (S (length (contents q w))) w.

(** [__len__]: [LLEN] *)
Definition len (q : queue) : M Z := Redis.llen (q_key q).

(** The values [LINDEX] gives at the indices [idx], each unpickled; a nil
    reply is skipped ([if e is not None]). *)
Fixpoint lindex_all (k : string) (idx : list Z) : M (list pyval) :=
  match idx with
  | [] => ret []
  | i :: idx' =>
      let* e := Redis.lindex k i in
      match e with
      | None => lindex_all k idx'
      | Some b =>
          let* v := lift (pickle_loads b) in
          let* vs := lindex_all k idx' in
          ret (v :: vs)
      end
  end.

(** [range(0, n)] and [range(-1, -n - 1, -1)] *)
Definition range_up (n : Z) : list Z := map Z.of_nat (seq 0 (Z.to_nat n)).
Definition range_down (n : Z) : list Z := map (fun i => - Z.of_nat i - 1)%Z (seq 0 (Z.to_nat n)).

(** [list(iter(q))]: [for i in range(len(self))], [LINDEX] at [i]. *)
Definition iter (q : queue) : M (list pyval) :=
  let* n := len q in lindex_all (q_key q) (range_up n).

(** [list(q.head(n))] and [list(q.tail(n))] *)
Definition head (q : queue) (n : Z) : M (list pyval) := lindex_all (q_key q) (range_up n).
Definition tail (q : queue) (n : Z) : M (list pyval) := lindex_all (q_key q) (range_down n).

(** [clear]: [DEL] of the list. *)
Definition clear (q : queue) : M Z := Redis.del (q_key q).

(** [is_member]: [SISMEMBER] on the list's key. *)
Definition is_member (q : queue) (v : pyval) : M Z := Redis.sismember (q_key q) (BlobPickle v).

End Queue.

(** ** [get_config]: layered YAML files merged by [flatten_dict]

    A loaded YAML document is a mapping with string keys or another value
    (scalar, sequence, [null]), kept as its text.  Python dicts keep their
    insertion order; they are association lists with distinct keys. *)
Module Config.

(** A YAML scalar as [yaml.safe_load] gives it: a [str], or another
    scalar ([int], [float], [bool], [None], a date), kept as its text. *)
Inductive yscalar :=
| SStr (s : string)
| SOther (text : string).

(** A loaded YAML value: a scalar, a sequence ([list]) or a mapping with
    [str] keys. *)
Inductive yval :=
| YLeaf (s : yscalar)
| YList (l : list yval)
| YMap (kvs : list (string * yval)).

(** Induction over the nested mappings (sequences are not walked). *)
Fixpoint yval_ind' (P : yval -> Prop) (Hl : forall s, P (YLeaf s))
    (Hs : forall l, P (YList l))
    (Hm : forall kvs, Forall (fun kv => P kv.2) kvs -> P (YMap kvs)) (y : yval) : P y :=
  match y with
  | YLeaf s => Hl s
  | YList l => Hs l
  | YMap kvs =>
      Hm kvs ((fix go (l : list (string * yval)) : Forall (fun kv => P kv.2) l :=
                 match l with
                 | [] => @List.Forall_nil _ _
                 | (k, v) :: l' => @List.Forall_cons _ (fun kv => P kv.2) (k, v) l'
                                     (yval_ind' P Hl Hs Hm v) (go l')
                 end) kvs)
  end.

Fixpoint dget {A} (k : string) (l : list (string * A)) : option A :=
  match l with
  | [] => None
  | (k', v) :: l' => if String.eqb k' k then Some v else dget k l'
  end.

(** [d[k] = v] on a dict: in place if [k] is there, appended otherwise. *)
Fixpoint dict_set {A} (k : string) (v : A) (l : list (string * A)) : list (string * A) :=
  match l with
  | [] => [(k, v)]
  | (k', v') :: l' => if String.eqb k' k then (k', v) :: l' else (k', v') :: dict_set k v l'
  end.

(** [flatten_dict]'s [dot_reducer] *)
Definition dot_reducer (parent : option string) (k : string) : string :=
  match parent with None => k | Some p => p ++ "." ++ k end.

(** [flatten(d, reducer="dot")]: nested mappings are walked (an empty one
    leaves nothing, as [keep_empty_types=()]); any other value is a leaf,
    stored under its dotted key; a dotted key met twice raises
    [ValueError]. *)
Fixpoint flat_val (parent : option string) (k : string) (v : yval)
    (acc : list (string * yval)) {struct v} : result (list (string * yval)) :=
  let fk := dot_reducer parent k in
  match v with
  | YMap kvs =>
      (fix go (kvs : list (string * yval)) (acc : list (string * yval)) :=
         match kvs with
         | [] => Ok acc
         | (k', v') :: kvs' =>
             match flat_val (Some fk) k' v' acc with
             | Ok acc' => go kvs' acc'
             | Err e => Err e
             end
         end) kvs acc
  | YLeaf _ | YList _ =>
      match dget fk acc with
      | Some _ => Err ValueError
      | None => Ok (acc ++ [(fk, v)])%list
      end
  end.

Fixpoint flat_items (kvs : list (string * yval)) (acc : list (string * yval))
    : result (list (string * yval)) :=
  match kvs with
  | [] => Ok acc
  | (k, v) :: kvs' =>
      match flat_val None k v acc with
      | Ok acc' => flat_items kvs' acc'
      | Err e => Err e
      end
  end.

(** A document that is not a mapping (such as [None], what an empty file
    loads to) has no [.items()]: [AttributeError]. *)
Definition flatten (d : yval) : result (list (string * yval)) :=
  match d with
  | YMap kvs => flat_items kvs []
  | YLeaf _ | YList _ => Err AttributeError
  end.

(** [nested_set_dict(d, keys, value)]:
<<
    key = keys[0]
    if len(keys) == 1:
        if key in d:
            raise ValueError("duplicated key '{}'".format(key))
        d[key] = value
        return
    d = d.setdefault(key, {})
    nested_set_dict(d, keys[1:], value)
>>
    On a value [d] that is not a dict, [key in d] is a substring test on a
    [str], a membership test on a [list] and a [TypeError] on any other
    scalar; the assignment [d[key] = value] that follows raises
    [TypeError] and [setdefault] raises [AttributeError]. *)
Definition nondict_in (k : string) (d : yval) : result bool :=
  match d with
  | YLeaf (SStr s) => Ok (PyStr.contains k s)
  | YLeaf (SOther _) => Err TypeError
  | YList l =>
      Ok (existsb (fun e => match e with YLeaf (SStr s) => String.eqb s k | _ => false end) l)
  | YMap kvs => Ok (bool_decide (is_Some (dget k kvs)))
  end.

Fixpoint nested_set (d : yval) (keys : list string) (value : yval) : result yval :=
  match keys with
  | [] => Err AssertionError
  | [k] =>
      match d with
      | YMap kvs =>
          match dget k kvs with
          | Some _ => Err ValueError
          | None => Ok (YMap (kvs ++ [(k, value)])%list)
          end
      | _ =>
          match nondict_in k d with
          | Ok true => Err ValueError
          | Ok false => Err TypeError
          | Err e => Err e
          end
      end
  | k :: ks =>
      match d with
      | YMap kvs =>
          let sub := match dget k kvs with Some s => s | None => YMap [] end in
          match nested_set sub ks value with
          | Ok sub' => Ok (YMap (dict_set k sub' kvs))
          | Err e => Err e
          end
      | _ => Err AttributeError
      end
  end.

Fixpoint unflat_go (d : yval) (items : list (string * yval)) : result yval :=
  match items with
  | [] => Ok d
  | (fk, v) :: items' =>
      match nested_set d (PyStr.split "."%char fk) v with
      | Ok d' => unflat_go d' items'
      | Err e => Err e
      end
  end.

(** [unflatten(d, splitter="dot")] *)
Definition unflatten (items : list (string * yval)) : result yval := unflat_go (YMap []) items.

(** [dict(lines)]: a later pair overwrites the value of an earlier key. *)
Definition py_dict (lines : list (string * yval)) : list (string * yval) :=
  fold_left (fun d kv => dict_set kv.1 kv.2 d) lines [].

(** [get_config(paths)] on the documents its files load to, in order; a
    file whose YAML does not parse ([None]) is skipped, as
    [except yaml.YAMLError] does; a [flatten] error is not caught.
<<
    for path in paths:
        with path.open() as f:
            try:
                d = yaml.safe_load(f)
                loaded.append(path)
                lines.extend(flatten(d, reducer="dot").items())
            except yaml.YAMLError as exc:
                errors.append((path, exc))
    return unflatten(dict(lines), splitter="dot")
>> *)
Fixpoint collect_lines (docs : list (option yval)) : result (list (string * yval)) :=
  match docs with
  | [] => Ok []
  | None :: docs' => collect_lines docs'
  | Some d :: docs' =>
      match flatten d with
      | Err e => Err e
      | Ok l =>
          match collect_lines docs' with
          | Ok ls => Ok (l ++ ls)%list
          | Err e => Err e
          end
      end
  end.

Definition get_config (docs : list (option yval)) : result yval :=
  match collect_lines docs with
  | Ok lines => unflatten (py_dict lines)
  | Err e => Err e
  end.

(** The value at a dotted path of the merged configuration. *)
Fixpoint ylookup (path : list string) (y : yval) : option yval :=
  match path, y with
  | [], _ => Some y
  | k :: path', YMap kvs =>
      match dget k kvs with
      | Some u => ylookup path' u
      | None => None
      end
  | _ :: _, _ => None
  end.

Definition is_leaf (y : yval) : bool := match y with YMap _ => false | _ => true end.

Example get_config_ex :
  get_config [Some (YMap [("caches", YMap [("a", YMap [("class_", YLeaf (SStr "FSObjectStore"));
                                                       ("path", YLeaf (SStr "/tmp"))])]);
                          ("default", YLeaf (SStr "a"))]);
              Some (YMap [("caches", YMap [("a", YMap [("path", YLeaf (SStr "/var"))])])])] =
  Ok (YMap [("caches", YMap [("a", YMap [("class_", YLeaf (SStr "FSObjectStore"));
                                         ("path", YLeaf (SStr "/var"))])]);
            ("default", YLeaf (SStr "a"))]).
Proof. reflexivity. Qed.

End Config.

(** ** [RedisSet]: a Redis set at [self.prefix = os.join_pathb(key)],
    given here as the key [k]; [add] with [score=None]. *)
Module RSet.

Definition rset_key (S : store) (key : string) : string := join_pathb S key.

(**
<<
        if isinstance(value, (list, tuple, set)):
            for v in value:
                self.add(v, score)
            return
        ...
            return self.redis.sadd(self.prefix, pickle.dumps(value))
>> *)
Fixpoint add (k : string) (v : pyval) : M pyval :=
  match v with
  | PList l | PTuple l | PSet l =>
      let* _ := (fix go (l : list pyval) : M unit :=
                   match l with
                   | [] => ret tt
                   | x :: l' => let* _ := add k x in go l'
                   end) l in
      ret PNone
  | _ => let* n := Redis.sadd k (BlobPickle v) in ret (PInt n)
  end.

Definition remove (k : string) (v : pyval) : M Z := Redis.srem k (BlobPickle v).

Definition is_member (k : string) (v : pyval) : M Z := Redis.sismember k (BlobPickle v).

(** [[pickle.loads(e) for e in ...]] *)
Fixpoint loads_all (l : list blob) : result (list pyval) :=
  match l with
  | [] => Ok []
  | b :: l' =>
      match pickle_loads b with
      | Ok v => match loads_all l' with Ok vs => Ok (v :: vs) | Err e => Err e end
      | Err e => Err e
      end
  end.

Definition get (k : string) : M (list pyval) :=
  let* l := Redis.smembers k in lift (loads_all l).

(** [move(other, value)]: [SMOVE] to [other.prefix]. *)
Definition move (k other : string) (v : pyval) : M Z := Redis.smove k other (BlobPickle v).

Definition len (k : string) : M Z := Redis.scard k.

Definition clear (k : string) : M Z := Redis.del k.

(** The values [add] hands to [SADD]: the items of nested lists, tuples
    and sets, and any other value itself. *)
Fixpoint members_of (v : pyval) : list pyval :=
  match v with
  | PList l | PTuple l | PSet l =>
      (fix go (l : list pyval) : list pyval :=
         match l with
         | [] => []
         | x :: l' => (members_of x ++ go l')%list
         end) l
  | _ => [v]
  end.

End RSet.

(** ** [ObjectSet]: a Python [set] stored under one key of any store

    [PSet] holds the elements of the set.  [py_eq] is Python's [==]; the
    elements of a set and the values tested against it must be hashable:
    [None], [bool], [int], [str], [bytes] and tuples of those ([list],
    [dict] and [set] are not). *)
Section ObjSet.
Context (lib : PyLib) (py_eq : pyval -> pyval -> bool).

Fixpoint hashable (v : pyval) : bool :=
  match v with
  | PNone | PBool _ | PInt _ | PStr _ | PBytes _ => true
  | PTuple l => forallb hashable l
  | PList _ | PDict _ | PSet _ => false
  end.

(** [value in o]: [TypeError] for an unhashable [value]. *)
Definition py_in (v : pyval) (o : list pyval) : result bool :=
  if hashable v then Ok (existsb (py_eq v) o) else Err TypeError.

(** [o.add(value)] *)
Definition set_add (v : pyval) (o : list pyval) : result (list pyval) :=
  match py_in v o with
  | Ok true => Ok o
  | Ok false => Ok (o ++ [v])%list
  | Err e => Err e
  end.

(** [o.remove(value)]: [KeyError] when [value] is not in [o]. *)
Definition set_remove (v : pyval) (o : list pyval) : result (list pyval) :=
  match py_in v o with
  | Ok true => Ok (filter (fun x => negb (py_eq v x)) o)
  | Ok false => Err KeyError
  | Err e => Err e
  end.

(**
<<
    def get(self):
        try:
            o = self.os.get(self.key)
            if not isinstance(o, set):
                raise TypeError(f"Object at {self.key} is not a set")
        except KeyError:
            o = set()
        return o
>>
    [remove] opens with the same code. *)
Definition oset_get (S : store) (key : string) : M (list pyval) := fun w =>
  match store_get lib S key w with
  | (Ok (PSet l), w') => (Ok l, w')
  | (Ok _, w') => (Err TypeError, w')
  | (Err KeyError, w') => (Ok [], w')
  | (Err e, w') => (Err e, w')
  end.

Definition oset_add (S : store) (key : string) (v : pyval) : M unit :=
  let* o := oset_get S key in
  let* o' := lift (set_add v o) in
  store_put lib S key (PSet o').

Definition oset_remove (S : store) (key : string) (v : pyval) : M unit :=
  let* o := oset_get S key in
  let* o' := lift (set_remove v o) in
  store_put lib S key (PSet o').

Definition oset_is_member (S : store) (key : string) (v : pyval) : M bool :=
  let* o := oset_get S key in lift (py_in v o).

Definition oset_len (S : store) (key : string) : M Z :=
  let* o := oset_get S key in ret (Z.of_nat (length o)).

End ObjSet.

(** ** [oscache] over an [ObjectStore] *)
Section OsCache.
Context (lib : PyLib).

(** Python truthiness, as [not in] applies it to what [__contains__]
    returns. *)
Definition py_bool (v : pyval) : bool :=
  match v with
  | PNone => false
  | PBool b => b
  | PInt z => negb (Z.eqb z 0)
  | PStr s => truthy s
  | PBytes b => negb (bool_decide (b = []))
  | PList l | PTuple l | PSet l => negb (bool_decide (l = []))
  | PDict kv => negb (bool_decide (kv = []))
  end.

(**
<<
        def wrapper( *args, **kwargs):
            key = (func.__name__, args, frozenset(kwargs.items()))
            key = "oscache-" + str(key)
            if key not in storage:
                storage[key] = func( *args, **kwargs)
            return storage[key]
>>
    [ck] is [str(key)] and [func] the wrapped call. *)
Definition oscache (S : store) (ck : string) (func : M pyval) : M pyval :=
  let key := ("oscache-" ++ ck)%string in
  let* e := store_exists S key in
  let* _ := (if py_bool e then ret tt
             else let* v := func in store_put lib S key v) in
  store_get lib S key.

End OsCache.

(** A concrete library instance, for evaluating the stores on examples. *)
Definition lib_example : PyLib := {|
  slugify := fun s => s;
  gzip_decompress := fun _ => Err BadGzipFile;
  json_dumps := fun _ => None;
  json_loads := fun _ => None;
  pickle_size := fun _ => 16%nat
|}.

(** Whether the entry a key names is absent. *)
Definition absent_entry (S : store) (w : world) (k : string) : Prop :=
  match st_kind S with
  | LocalObjectStore | LocalLargeObjectStore =>
      match w_shelves w !! PathLib.resolve (store_path S) with
      | Some db => db !! skey S k = None
      | None => True
      end
  | FSObjectStore =>
      match FS.node w (fs_file_path S k) with
      | Some (FFile _) => False
      | _ => True
      end
  | S3ObjectStore => w_s3 w !! (st_bucket S, skey S k) = None
  | RedisObjectStore => w_redis w !! join_pathb S k = None
  end.

(** The Python values equal to [False]: [False] and [0]. *)
Definition py_false (v : pyval) : Prop := v = PBool false \/ v = PInt 0.

(** A key with no entry: for [FSObjectStore], nothing at all (neither file
    nor directory) at [bucket-directory/key]. *)
Definition missing (S : store) (w : world) (k : string) : Prop :=
  match st_kind S with
  | FSObjectStore => FS.exists_at w (fs_file_path S k) = false
  | _ => absent_entry S w k
  end.

(** * Properties *)

Lemma world_eta (w : world) : World (w_fs w) (w_shelves w) (w_s3 w) (w_redis w) = w.
Proof. by destruct w. Qed.

Lemma set_redis_same (w : world) : set_redis (w_redis w) w = w.
Proof. by destruct w. Qed.

Lemma set_s3_same (w : world) : set_s3 (w_s3 w) w = w.
Proof. by destruct w. Qed.

(** ** Redis queues *)

Lemma slice_all {A} (l : list A) (m : Z) :
  l <> [] -> (0 <= m)%Z -> (Z.of_nat (length l) <= m + 1)%Z ->
  Redis.slice l (Z.of_nat (length l)) 0 m = l.
Proof.
  intros Hne Hm Hlen. unfold Redis.slice, Redis.window.
  destruct l as [|a l]; [done|]. simpl length in *.
  destruct (Z.ltb_spec 0 0); [lia|].
  destruct (Z.ltb_spec m 0); [lia|].
  destruct (Z.ltb_spec 0 0); [lia|].
  destruct (Z.gtb_spec 0 m); [lia|].
  destruct (Z.geb_spec 0 (Z.of_nat (S (length l)))); [lia|]. simpl.
  destruct (Z.geb_spec m (Z.of_nat (S (length l)))).
  - replace (Z.to_nat (Z.of_nat (S (length l)) - 1 - 0 + 1)) with (S (length l)) by lia.
    by rewrite firstn_all2 by (simpl; lia).
  - replace (Z.to_nat (m - 0 + 1)) with (S (length l)) by lia.
    by rewrite firstn_all2 by (simpl; lia).
Qed.

(** Pushing onto a bounded queue that is still below [max_length + 1]
    elements trims nothing. *)
Lemma push_below_bound (q : Queue.queue) (m : Z) (v : pyval) (l : list blob) (w : world) :
  Queue.q_max_length q = Some m -> (0 <= m)%Z ->
  (Z.of_nat (S (length l)) <= m + 1)%Z ->
  w_redis w !! Queue.q_key q = (match l with [] => None | _ => Some (RVList l) end) ->
  exists r, Queue.push q v w =
    (Ok r, set_redis (<[Queue.q_key q := RVList (BlobPickle v :: l)]> (w_redis w)) w).
Proof.
  intros Hml Hm Hlen Hw. unfold Queue.push, bind, Redis.lpush.
  destruct l as [|b l]; rewrite Hw.
  - eexists. rewrite Hml. unfold Redis.ltrim. simpl. rewrite lookup_insert_eq.
    rewrite (slice_all [BlobPickle v]) by (done || (simpl in *; lia)).
    unfold ret. simpl. by rewrite insert_insert_eq.
  - eexists. rewrite Hml. unfold Redis.ltrim. simpl. rewrite lookup_insert_eq.
    rewrite (slice_all (BlobPickle v :: b :: l)) by (done || (simpl in *; lia)).
    unfold ret. simpl. by rewrite insert_insert_eq.
Qed.

Lemma push_all_below_bound (q : Queue.queue) (m : Z) (vs : list pyval) :
  Queue.q_max_length q = Some m -> (0 <= m)%Z ->
  forall (l : list blob) (w : world),
  (Z.of_nat (length l + length vs) <= m + 1)%Z ->
  w_redis w !! Queue.q_key q = (match l with [] => None | _ => Some (RVList l) end) ->
  exists w', Queue.push_all q vs w = (Ok tt, w') /\
    Queue.contents q w' = (rev (map BlobPickle vs) ++ l)%list.
Proof.
  intros Hml Hm. induction vs as [|v vs IH]; intros l w Hlen Hw.
  - exists w. split; [done|]. unfold Queue.contents. simpl. rewrite Hw. by destruct l.
  - simpl in Hlen.
    destruct (push_below_bound q m v l w Hml Hm) as [r Hr]; [lia|done|].
    simpl. unfold bind at 1. rewrite Hr.
    destruct (IH (BlobPickle v :: l)
                 (set_redis (<[Queue.q_key q := RVList (BlobPickle v :: l)]> (w_redis w)) w))
      as [w' [Hrun Hc]].
    + simpl. lia.
    + simpl. by rewrite lookup_insert_eq.
    + exists w'. split; [done|]. rewrite Hc. simpl. by rewrite <- app_assoc.
Qed.

(** ** Filesystem calls leave the [shelve] databases alone *)

Lemma os_mkdir_shelves (p : list string) (w : world) :
  w_shelves (snd (FS.os_mkdir p w)) = w_shelves w.
Proof.
  unfold FS.os_mkdir.
  destruct (FS.exists_at w p); [done|].
  destruct (negb (FS.exists_at w (FS.parent p))); [done|].
  by destruct (negb (FS.is_dir_at w (FS.parent p))).
Qed.

Lemma mkdir_fuel_shelves (fuel : nat) :
  forall (p : list string) (parents exist_ok : bool) (w : world),
  w_shelves (snd (FS.mkdir_fuel fuel p parents exist_ok w)) = w_shelves w.
Proof.
  induction fuel as [|fuel IH]; intros p parents exist_ok w; simpl;
    pose proof (os_mkdir_shelves p w) as Hm;
    destruct (FS.os_mkdir p w) as [[[]|e] w'] eqn:E; simpl in *; try done;
    destruct e; simpl; try (destruct (exist_ok && FS.is_dir_at w' p); done);
    destruct (negb parents || bool_decide (FS.parent p = p)); try done.
  unfold bind. pose proof (IH (FS.parent p) true true w') as H1.
  destruct (FS.mkdir_fuel fuel (FS.parent p) true true w') as [[a|e] w''] eqn:E2;
    simpl in *; [|congruence].
  by rewrite IH, H1.
Qed.

Lemma write_bytes_shelves (p : list string) (b : blob) (w : world) :
  w_shelves (snd (FS.write_bytes p b w)) = w_shelves w.
Proof.
  unfold FS.write_bytes.
  destruct (FS.is_dir_at w p); [done|].
  destruct (negb (FS.exists_at w (FS.parent p))); [done|].
  by destruct (negb (FS.is_dir_at w (FS.parent p))).
Qed.

Lemma unlink_shelves (p : list string) (w : world) :
  w_shelves (snd (FS.unlink p w)) = w_shelves w.
Proof.
  unfold FS.unlink. destruct (FS.is_dir_at w p); [done|].
  by destruct (FS.node w p) as [[]|].
Qed.

Lemma large_put_shelves (lib : PyLib) (S : store) (k : string) (v : pyval) (w : world) :
  w_shelves (snd (large_put lib S k v w)) = w_shelves w.
Proof.
  unfold large_put. destruct (to_bytes lib v) as [[b size] ct].
  destruct (1024 * 1024 * 10 <? size)%nat; [|done].
  unfold bind, FS.exists_. simpl.
  destruct (FS.exists_at w (FS.parent (large_file lib S k))).
  - apply write_bytes_shelves.
  - unfold FS.mkdir.
    pose proof (mkdir_fuel_shelves (Datatypes.S (length (FS.parent (large_file lib S k))))
                  (FS.parent (large_file lib S k)) true false w) as H.
    destruct (FS.mkdir_fuel _ _ true false w) as [[[]|e] w'] eqn:E; simpl in *; [|done].
    by rewrite write_bytes_shelves.
Qed.

(** [local_get] on a key its database does not hold raises [KeyError]. *)
Lemma local_get_absent (S : store) (k : string) (w : world) :
  match w_shelves w !! PathLib.resolve (store_path S) with
  | Some db => db !! skey S k = None
  | None => True
  end ->
  fst (local_get S k w) = Err KeyError.
Proof.
  intros H. unfold local_get, bind, Shelf.open_.
  destruct (w_shelves w !! PathLib.resolve (store_path S)) as [db|].
  - by rewrite H.
  - by rewrite lookup_empty.
Qed.

(** ** Queues, construction and [sub] *)

(** C10: whether the queue's list is empty or not (or its key absent),
    [RedisQueue.peek] raises [TypeError]: the list [LRANGE] returns goes to
    [pickle.loads], and the world is left as it was. *)
Theorem peek_raises_type_error (q : Queue.queue) (w : world) :
  (w_redis w !! Queue.q_key q = None \/
   exists l, w_redis w !! Queue.q_key q = Some (RVList l)) ->
  Queue.peek q w = (Err TypeError, w).
Proof.
  intros [H | [l H]]; unfold Queue.peek, bind, Redis.lrange; rewrite H; reflexivity.
Qed.

Lemma peek_raises_type_error_witness :
  Queue.peek (Queue.MkQueue "b/q" None)
    (set_redis (<["b/q" := RVList [BlobPickle (PInt 1)]]> ∅) empty_world) =
  (Err TypeError, set_redis (<["b/q" := RVList [BlobPickle (PInt 1)]]> ∅) empty_world).
Proof.
  apply peek_raises_type_error. right. exists [BlobPickle (PInt 1)].
  simpl. by rewrite lookup_insert_eq.
Defined.

(** C9: two [FSObjectStore] handles with the same [path] and [bucket] and
    any prefixes name the same file for a key, and [put], [get], [exists]
    and [delete] act identically through both. *)
Theorem fs_store_ignores_prefix (lib : PyLib) (bucket path p1 p2 : string)
    (c1 c2 : bool) (k : string) (v : pyval) :
  let S1 := Store FSObjectStore bucket p1 path c1 in
  let S2 := Store FSObjectStore bucket p2 path c2 in
  store_loc S1 k = LFile (PathLib.resolve (PathLib.joinpath (store_path S1) k)) /\
  store_loc S1 k = store_loc S2 k /\
  store_put lib S1 k v = store_put lib S2 k v /\
  store_get lib S1 k = store_get lib S2 k /\
  store_exists S1 k = store_exists S2 k /\
  store_delete lib S1 k = store_delete lib S2 k.
Proof. repeat split. Qed.

(** C6: a bucket name with an underscore makes every constructor but
    [RedisObjectStore]'s raise [ValueError]; [RedisObjectStore] does not
    call [ObjectStore.__init__], returns a handle, and a [put] through it
    succeeds. *)
Theorem redis_store_accepts_underscore_bucket (lib : PyLib) (bucket : string)
    (prefix : option string) (path : string) (hc : bool) (k : string) (v : pyval)
    (w : world) :
  PyStr.has_char "_"%char bucket = true ->
  (forall kd, kd <> RedisObjectStore ->
     fst (new_store kd bucket prefix path hc w) = Err ValueError) /\
  new_store RedisObjectStore bucket prefix path hc w =
    (Ok (Store RedisObjectStore bucket (prefix_or prefix) path hc), w) /\
  fst (store_put lib (Store RedisObjectStore bucket (prefix_or prefix) path hc) k v w) = Ok tt.
Proof.
  intros Hb. split; [|split; reflexivity].
  intros kd Hkd. unfold new_store, local_init, objectstore_init, bind, lift.
  destruct kd; rewrite ?Hb; done.
Qed.

Lemma redis_store_accepts_underscore_bucket_witness :
  new_store RedisObjectStore "my_bucket" None "" false empty_world =
    (Ok (Store RedisObjectStore "my_bucket" "" "" false), empty_world) /\
  fst (new_store LocalObjectStore "my_bucket" None "" false empty_world) = Err ValueError.
Proof.
  destruct (redis_store_accepts_underscore_bucket lib_example "my_bucket" None "" false
              "k" (PInt 1) empty_world) as [H1 [H2 _]]; [reflexivity|].
  split; [exact H2|]. apply H1. discriminate.
Defined.

(** C3: pushing [max_length + 1] values onto a fresh queue bounded by
    [max_length] leaves all [max_length + 1] of them, the oldest included:
    [LTRIM key 0 max_length] keeps indices [0..max_length]. *)
Theorem bounded_queue_keeps_one_extra (q : Queue.queue) (m : Z) (vs : list pyval)
    (w : world) :
  Queue.q_max_length q = Some m -> (0 <= m)%Z -> Z.of_nat (length vs) = (m + 1)%Z ->
  w_redis w !! Queue.q_key q = None ->
  exists w', Queue.push_all q vs w = (Ok tt, w') /\
    Queue.contents q w' = rev (map BlobPickle vs) /\
    Z.of_nat (length (Queue.contents q w')) = (m + 1)%Z.
Proof.
  intros Hml Hm Hlen Hw.
  destruct (push_all_below_bound q m vs Hml Hm [] w) as [w' [Hrun Hc]];
    [simpl; lia | done |].
  exists w'. rewrite app_nil_r in Hc. split; [done|]. split; [done|].
  by rewrite Hc, length_rev, length_map.
Qed.

Lemma bounded_queue_keeps_one_extra_witness :
  exists w', Queue.push_all (Queue.MkQueue "b/q" (Some 2%Z)) [PInt 1; PInt 2; PInt 3]
               empty_world = (Ok tt, w') /\
    Queue.contents (Queue.MkQueue "b/q" (Some 2%Z)) w' =
      [BlobPickle (PInt 3); BlobPickle (PInt 2); BlobPickle (PInt 1)] /\
    Z.of_nat (length (Queue.contents (Queue.MkQueue "b/q" (Some 2%Z)) w')) = 3%Z.
Proof.
  apply (bounded_queue_keeps_one_extra (Queue.MkQueue "b/q" (Some 2%Z)) 2%Z);
    reflexivity || lia.
Defined.

(** C1: [LocalLargeObjectStore.put] never writes its shelve database, so
    when the key is not already there, a [get] after a [put] that returned
    raises [KeyError] instead of giving the value back. *)
Theorem large_put_then_get_key_error (lib : PyLib) (S : store) (k : string) (v : pyval)
    (w w1 : world) :
  st_kind S = LocalLargeObjectStore -> absent_entry S w k ->
  store_put lib S k v w = (Ok tt, w1) ->
  fst (store_get lib S k w1) = Err KeyError.
Proof.
  intros Hk Habs Hput. unfold absent_entry in Habs. rewrite Hk in Habs.
  unfold store_put, store_get in *. rewrite Hk in *.
  pose proof (large_put_shelves lib S k v w) as Hs. rewrite Hput in Hs. simpl in Hs.
  apply local_get_absent. by rewrite Hs.
Qed.

Lemma large_put_then_get_key_error_witness :
  store_put lib_example (Store LocalLargeObjectStore "b" "" "/data" false) "k" (PStr "v")
    empty_world = (Ok tt, empty_world) /\
  fst (store_get lib_example (Store LocalLargeObjectStore "b" "" "/data" false) "k"
         empty_world) = Err KeyError.
Proof.
  split; [reflexivity|].
  apply (large_put_then_get_key_error lib_example _ "k" (PStr "v") empty_world empty_world);
    reflexivity.
Defined.

(** C4: for an [S3ObjectStore] built on the bucket name ["b/p"],
    [sub("x").sub("y")] and [sub("x/y")] send key ["k"] to different objects:
    each rebuild prepends the bucket's prefix part ["p"] once more. *)
Theorem s3_sub_chain_differs :
  fst ((let* S := new_store S3ObjectStore "b/p" None "" false in
        let* A := store_sub FSObjectStore S ["x"] in
        let* AB := store_sub FSObjectStore A ["y"] in
        let* C := store_sub FSObjectStore S ["x/y"] in
        ret (store_loc AB "k", store_loc C "k")) empty_world) =
  Ok (LObj "b/p" "p/p/p/x/y/k", LObj "b/p" "p/p/x/y/k").
Proof. reflexivity. Qed.

(** ** Deleting and reading absent keys *)

Lemma local_delete_absent (S : store) (k : string) (w : world) :
  match w_shelves w !! PathLib.resolve (store_path S) with
  | Some db => db !! skey S k = None
  | None => True
  end ->
  exists w', local_delete S k w = (Err KeyError, w').
Proof.
  intros H. unfold local_delete, bind, Shelf.open_.
  destruct (w_shelves w !! PathLib.resolve (store_path S)) as [db|].
  - rewrite H. by eexists.
  - rewrite lookup_empty. by eexists.
Qed.

Lemma local_delete_ok (S : store) (k : string) (w w' : world) :
  local_delete S k w = (Ok tt, w') ->
  exists db, w_shelves w' !! PathLib.resolve (store_path S) = Some db /\
             db !! skey S k = None.
Proof.
  unfold local_delete, bind, Shelf.open_.
  destruct (w_shelves w !! PathLib.resolve (store_path S)) as [db|].
  - destruct (db !! skey S k); [|discriminate].
    intros [= <-]. exists (delete (skey S k) db). simpl.
    by rewrite lookup_insert_eq, lookup_delete_eq.
  - rewrite lookup_empty. discriminate.
Qed.

Lemma local_exists_absent (S : store) (k : string) (w : world) :
  match w_shelves w !! PathLib.resolve (store_path S) with
  | Some db => db !! skey S k = None
  | None => True
  end ->
  fst (local_exists S k w) = Ok false.
Proof.
  intros H. unfold local_exists, bind, Shelf.open_.
  destruct (w_shelves w !! PathLib.resolve (store_path S)) as [db|].
  - by rewrite H.
  - by rewrite lookup_empty.
Qed.

Lemma large_delete_absent (lib : PyLib) (S : store) (k : string) (w : world) :
  match w_shelves w !! PathLib.resolve (store_path S) with
  | Some db => db !! skey S k = None
  | None => True
  end ->
  exists e w', large_delete lib S k w = (Err e, w').
Proof.
  intros H. unfold large_delete, bind, FS.exists_.
  destruct (FS.exists_at w (large_file lib S k)).
  - pose proof (unlink_shelves (large_file lib S k) w) as Hs.
    destruct (FS.unlink (large_file lib S k) w) as [[[]|e] w1]; simpl in Hs.
    + destruct (local_delete_absent S k w1) as [w' Hw']; [by rewrite Hs|].
      rewrite Hw'. by do 2 eexists.
    + by do 2 eexists.
  - destruct (local_delete_absent S k w) as [w' Hw']; [done|].
    unfold ret. rewrite Hw'. by do 2 eexists.
Qed.

Lemma large_delete_ok (lib : PyLib) (S : store) (k : string) (w w' : world) :
  large_delete lib S k w = (Ok tt, w') ->
  exists db, w_shelves w' !! PathLib.resolve (store_path S) = Some db /\
             db !! skey S k = None.
Proof.
  unfold large_delete, bind, FS.exists_.
  destruct (FS.exists_at w (large_file lib S k)).
  - destruct (FS.unlink (large_file lib S k) w) as [[[]|e] w1]; [|discriminate].
    apply local_delete_ok.
  - apply local_delete_ok.
Qed.

Lemma unlink_ok_gone (p : list string) (w w' : world) :
  FS.unlink p w = (Ok tt, w') -> FS.exists_at w' p = false.
Proof.
  unfold FS.unlink, FS.is_dir_at.
  destruct (PathLib.always_dir (PathLib.resolve p)) eqn:Ha; [discriminate|].
  destruct (FS.node w p) as [[b|]|] eqn:En; simpl; try discriminate.
  intros [= <-]. unfold FS.exists_at, FS.node. simpl.
  rewrite Ha, lookup_delete_eq. reflexivity.
Qed.

(** C7: deleting an absent key raises on [LocalObjectStore],
    [LocalLargeObjectStore] and [FSObjectStore]; on [S3ObjectStore] and
    [RedisObjectStore] it returns and leaves the world exactly as it was. *)
Theorem delete_absent_per_backend (lib : PyLib) (S : store) (k : string) (w : world) :
  absent_entry S w k ->
  ((st_kind S = LocalObjectStore \/ st_kind S = LocalLargeObjectStore \/
    st_kind S = FSObjectStore) ->
   exists e w', store_delete lib S k w = (Err e, w')) /\
  ((st_kind S = S3ObjectStore \/ st_kind S = RedisObjectStore) ->
   store_delete lib S k w = (Ok tt, w)).
Proof.
  unfold absent_entry, store_delete. intros Habs. split.
  - intros [Hk | [Hk | Hk]]; rewrite Hk in *.
    + destruct (local_delete_absent S k w Habs) as [w' Hw']. rewrite Hw'. by do 2 eexists.
    + by apply large_delete_absent.
    + unfold fs_delete, FS.unlink.
      destruct (FS.is_dir_at w (fs_file_path S k)); [by do 2 eexists|].
      destruct (FS.node w (fs_file_path S k)) as [[b|]|]; [done| |]; by do 2 eexists.
  - intros [Hk | Hk]; rewrite Hk in *.
    + unfold s3_delete, S3.delete_object. by rewrite delete_id, set_s3_same.
    + unfold redis_delete, bind, Redis.del, ret.
      by rewrite delete_id, set_redis_same.
Qed.

Lemma delete_absent_per_backend_witness :
  (exists e w', store_delete lib_example (Store FSObjectStore "b" "" "/data" false) "k"
                  empty_world = (Err e, w')) /\
  store_delete lib_example (Store RedisObjectStore "b" "" "" false) "k" empty_world =
    (Ok tt, empty_world).
Proof.
  split.
  - apply (delete_absent_per_backend lib_example (Store FSObjectStore "b" "" "/data" false)
             "k" empty_world); [exact I | right; right; reflexivity].
  - apply (delete_absent_per_backend lib_example (Store RedisObjectStore "b" "" "" false)
             "k" empty_world); [reflexivity | right; reflexivity].
Defined.

(** C2 (as the code has it): for a key with no entry (for [FSObjectStore]:
    no file and no directory at [bucket-directory/key]) [get] raises
    [KeyError] and [exists] returns a false value ([False], or [0] on
    [RedisObjectStore]) without raising; a [delete] that returns leaves the
    key with no entry. *)
Theorem get_exists_missing (lib : PyLib) (S : store) (k : string) :
  (forall w, missing S w k ->
     fst (store_get lib S k w) = Err KeyError /\
     exists v, fst (store_exists S k w) = Ok v /\ py_false v) /\
  (forall w w', store_delete lib S k w = (Ok tt, w') -> missing S w' k).
Proof.
  unfold missing, absent_entry, store_get, store_exists, store_delete, py_false.
  split.
  - intros w Hm. destruct (st_kind S).
    + split; [by apply local_get_absent|].
      exists (PBool false). unfold bind at 1. pose proof (local_exists_absent S k w Hm) as He.
      destruct (local_exists S k w) as [r w']. simpl in He. subst r. by split; [|left].
    + split; [by apply local_get_absent|].
      exists (PBool false). unfold bind at 1. pose proof (local_exists_absent S k w Hm) as He.
      destruct (local_exists S k w) as [r w']. simpl in He. subst r. by split; [|left].
    + unfold fs_get, fs_exists, bind, FS.exists_. rewrite Hm.
      split; [done|]. exists (PBool false). by split; [|left].
    + unfold s3_get, s3_exists, bind, S3.get_object. rewrite Hm.
      split; [done|]. exists (PBool false). by split; [|left].
    + unfold redis_get, redis_exists, bind, Redis.get, Redis.exists_. rewrite Hm.
      split; [done|]. exists (PInt 0). by split; [|right].
  - intros w w' Hd. destruct (st_kind S).
    + destruct (local_delete_ok S k w w' Hd) as [db [H1 H2]]. by rewrite H1.
    + destruct (large_delete_ok lib S k w w' Hd) as [db [H1 H2]]. by rewrite H1.
    + by apply (unlink_ok_gone _ w).
    + unfold s3_delete, S3.delete_object in Hd. injection Hd as <-.
      simpl. by rewrite lookup_delete_eq.
    + unfold redis_delete, bind, Redis.del, ret in Hd. injection Hd as <-.
      simpl. by rewrite lookup_delete_eq.
Qed.

(** C2, a counterexample: through an [FSObjectStore], after [put("a/b", v)]
    the never-written key ["a"] names a directory: [exists("a")] is [True]
    and [get("a")] raises [IsADirectoryError], not [KeyError]. *)
Lemma fs_directory_key_exists :
  fst ((let* _ := store_put lib_example (Store FSObjectStore "b" "" "/data" false) "a/b"
                    (PStr "v") in
        store_exists (Store FSObjectStore "b" "" "/data" false) "a") empty_world) =
    Ok (PBool true) /\
  fst ((let* _ := store_put lib_example (Store FSObjectStore "b" "" "/data" false) "a/b"
                    (PStr "v") in
        store_get lib_example (Store FSObjectStore "b" "" "/data" false) "a") empty_world) =
    Err IsADirectoryError.
Proof. split; vm_compute; reflexivity. Qed.

(** ** Listing *)

Lemma substring_all (s : string) : substring 0 (String.length s) s = s.
Proof. induction s as [|a s IH]; simpl; [done|]. by rewrite IH. Qed.

Lemma startswith_removeprefix (p s : string) :
  PyStr.startswith p s = true -> s = p ++ PyStr.removeprefix p s.
Proof.
  unfold PyStr.removeprefix. intros H. rewrite H. revert s H.
  induction p as [|a p IH]; intros s H.
  - simpl. by rewrite Nat.sub_0_r, substring_all.
  - destruct s as [|b s]; [done|]. simpl in H |- *.
    apply andb_true_iff in H as [Hab H].
    apply Ascii.eqb_eq in Hab as <-. exact (f_equal (String a) (IH s H)).
Qed.

Lemma lstrip_split (c : ascii) (s : string) :
  exists sl, PyStr.lstrip c sl = "" /\ s = sl ++ PyStr.lstrip c s.
Proof.
  induction s as [|a s [sl [H1 H2]]].
  - by exists "".
  - simpl. destruct (Ascii.eqb_spec a c) as [->|].
    + exists (String c sl). simpl. rewrite Ascii.eqb_refl.
      split; [done|]. exact (f_equal (String c) H2).
    + by exists "".
Qed.

Lemma gen_map_in {A B} (f : A -> result B) (l : list A) (y : B) :
  In y (fst (gen_map f l)) -> exists a, In a l /\ f a = Ok y.
Proof.
  induction l as [|a l IH]; simpl; [done|].
  destruct (f a) as [b|e] eqn:Ef; [|done].
  destruct (gen_map f l) as [bs e] eqn:Eg. simpl.
  intros [<- | Hin].
  - by exists a; split; [left|].
  - destruct IH as [a' [H1 H2]]; [done|]. by exists a'; split; [right|].
Qed.

Lemma in_map_keys {K A} `{Countable K} (m : gmap K A) (k : K) :
  In k (map fst (map_to_list m)) -> exists v, m !! k = Some v.
Proof.
  intros Hin. apply in_map_iff in Hin as [[k' v] [<- Hin]].
  exists v. apply elem_of_map_to_list. by apply list_elem_of_In.
Qed.

Lemma joinpath_relative (base : list string) (p : string) :
  PyStr.startswith "/" p = false -> PathLib.joinpath base p = (base ++ PathLib.parts p)%list.
Proof. unfold PathLib.joinpath. by intros ->. Qed.

(** What [list(p)] yields, per backend.
    [LocalObjectStore]/[LocalLargeObjectStore]: keys of the database under
    [join_path(p) + "/"], with that part removed.  [FSObjectStore] (for a
    relative [p]): paths of entries strictly below the directory [p] names,
    relative to the bucket directory, so beginning with the parts of [p].
    [S3ObjectStore]: keys of the bucket under the listing prefix, relative to
    the store's prefix (not to [p]).  [RedisObjectStore]: the same keys
    whatever [p] is. *)
Theorem list_keys_per_backend (S : store) (p : string) (w : world) :
  ((st_kind S = LocalObjectStore \/ st_kind S = LocalLargeObjectStore) ->
   forall y, In y (fst (store_list S p w)) ->
   exists db v, w_shelves w !! PathLib.resolve (store_path S) = Some db /\
                db !! ((join_path (st_prefix S) [p] ++ "/") ++ y) = Some v) /\
  (st_kind S = FSObjectStore -> PyStr.startswith "/" p = false ->
   forall y, In y (fst (store_list S p w)) ->
   exists rel n, rel <> [] /\
     w_fs w !! (PathLib.resolve (PathLib.joinpath (store_path S) p) ++ rel)%list = Some n /\
     y = PathLib.to_str (PathLib.parts p ++ rel)%list) /\
  (st_kind S = S3ObjectStore ->
   forall y, In y (fst (store_list S p w)) ->
   exists key o, w_s3 w !! (st_bucket S, key) = Some o /\
     PyStr.startswith (s3_list_prefix S p) key = true /\
     (PyStr.startswith (st_prefix S) key = true ->
      exists sl, PyStr.lstrip slash sl = "" /\ key = st_prefix S ++ sl ++ y)) /\
  (st_kind S = RedisObjectStore -> forall p', store_list S p w = store_list S p' w).
Proof.
  unfold store_list. split; [|split; [|split]].
  - intros Hk y Hy.
    assert (Hl : In y (local_list S p w)) by (destruct Hk as [Hk|Hk]; rewrite Hk in Hy; exact Hy).
    clear Hy Hk. unfold local_list in Hl.
    apply in_map_iff in Hl as [key [<- Hin]].
    apply list_elem_of_In, list_elem_of_filter in Hin as [Hpre Hin].
    destruct (w_shelves w !! PathLib.resolve (store_path S)) as [db|] eqn:Edb;
      [|by apply list_elem_of_In in Hin].
    apply list_elem_of_In, in_map_keys in Hin as [v Hv].
    exists db, v. split; [done|]. by rewrite <- (startswith_removeprefix _ _ Hpre).
  - intros Hk Hrel y Hy. rewrite Hk in Hy. unfold fs_list in Hy.
    apply gen_map_in in Hy as [q [Hq Hy]].
    apply list_elem_of_In, list_elem_of_filter in Hq as [[[rel Hpre] Hlen] Hq].
    apply list_elem_of_In, in_map_keys in Hq as [n Hn].
    exists rel, n. rewrite Hpre, drop_app_length in Hy.
    rewrite Hpre, length_app in Hlen. rewrite <- Hpre.
    split; [by intros ->; simpl in Hlen; lia|]. split; [done|].
    unfold fs_relative_to in Hy. rewrite joinpath_relative in Hy by done.
    rewrite <- app_assoc in Hy.
    rewrite bool_decide_eq_true_2 in Hy by (by eexists).
    rewrite drop_app_length in Hy. by injection Hy as <-.
  - intros Hk y Hy. rewrite Hk in Hy. simpl in Hy. unfold s3_list in Hy.
    apply in_map_iff in Hy as [key [<- Hin]]. unfold S3.list_keys in Hin.
    apply in_map_iff in Hin as [[[b key'] o] [Hkey Hin]]. simpl in Hkey. subst key'.
    apply list_elem_of_In, list_elem_of_filter in Hin as [[Hb Hpre] Hin]. simpl in Hb, Hpre.
    subst b. apply elem_of_map_to_list in Hin.
    exists key, o. split; [done|]. split; [done|]. intros Hsp.
    destruct (lstrip_split slash (PyStr.removeprefix (st_prefix S) key)) as [sl [Hsl Heq]].
    exists sl. split; [done|].
    rewrite <- Heq. by apply startswith_removeprefix.
  - intros Hk p'. by rewrite Hk.
Qed.

Lemma list_keys_per_backend_witness :
  exists rel n, rel <> [] /\
    w_fs (snd (store_put lib_example (Store FSObjectStore "b" "" "/data" false) "x/y"
                 (PStr "v") empty_world))
      !! (PathLib.resolve (PathLib.joinpath
                             (store_path (Store FSObjectStore "b" "" "/data" false)) "x")
          ++ rel)%list = Some n /\
    "x/y" = PathLib.to_str (PathLib.parts "x" ++ rel)%list.
Proof.
  apply (list_keys_per_backend (Store FSObjectStore "b" "" "/data" false) "x"
           (snd (store_put lib_example (Store FSObjectStore "b" "" "/data" false) "x/y"
                   (PStr "v") empty_world))); [reflexivity | reflexivity |].
  vm_compute. left. reflexivity.
Defined.

(** C5: [FSObjectStore.list("x")] yields ["x/y"] for the
    key ["x/y"], relative to the bucket directory, and joining it to ["x"]
    names nothing; [RedisObjectStore.list("x")] also yields ["y/2"], a key
    outside ["x"]. *)
Lemma list_outside_prefix :
  fst ((let* _ := store_put lib_example (Store FSObjectStore "b" "" "/data" false) "x/y"
                    (PStr "v") in
        let* l := observe (store_list (Store FSObjectStore "b" "" "/data" false) "x") in
        let* e := store_exists (Store FSObjectStore "b" "" "/data" false)
                    (join_path "x" ["x/y"]) in
        ret (l, e)) empty_world) = Ok ((["x/y"], None), PBool false) /\
  fst ((let* _ := store_put lib_example (Store RedisObjectStore "b" "" "" false) "x/1"
                    (PInt 1) in
        let* _ := store_put lib_example (Store RedisObjectStore "b" "" "" false) "y/2"
                    (PInt 2) in
        observe (store_list (Store RedisObjectStore "b" "" "" false) "x")) empty_world) =
    Ok (["y/2"; "x/1"], None).
Proof. split; vm_compute; reflexivity. Qed.

(** ** Layered configuration *)
Module ConfigFacts.
Import Config.

Lemma dget_In {A} (k : string) (v : A) (l : list (string * A)) :
  dget k l = Some v -> In (k, v) l.
Proof.
  induction l as [|[k' v'] l IH]; simpl; [done|].
  destruct (String.eqb_spec k' k) as [->|]; [intros [= ->]; by left|].
  intros H. right. by apply IH.
Qed.

Lemma dget_notin {A} (k : string) (l : list (string * A)) :
  dget k l = None -> ~ In k (map fst l).
Proof.
  induction l as [|[k' v'] l IH]; simpl; [tauto|].
  destruct (String.eqb_spec k' k); [discriminate|].
  intros H [Heq|Hin]; [congruence|]. by apply IH.
Qed.

Lemma dget_app_l {A} (k : string) (l l' : list (string * A)) (x : A) :
  dget k l = Some x -> dget k (l ++ l')%list = Some x.
Proof.
  induction l as [|[k' v'] l IH]; simpl; [done|].
  destruct (String.eqb k' k); [done|]. apply IH.
Qed.

Lemma dget_app_r {A} (k : string) (l l' : list (string * A)) :
  dget k l = None -> dget k (l ++ l')%list = dget k l'.
Proof.
  induction l as [|[k' v'] l IH]; simpl; [done|].
  destruct (String.eqb k' k); [discriminate|]. apply IH.
Qed.

Lemma dget_dict_set {A} (k k' : string) (v : A) (l : list (string * A)) :
  dget k (dict_set k' v l) = if String.eqb k' k then Some v else dget k l.
Proof.
  induction l as [|[k1 v1] l IH]; simpl; [done|].
  destruct (String.eqb_spec k1 k') as [->|Hne]; simpl.
  - by destruct (String.eqb k' k).
  - destruct (String.eqb_spec k1 k) as [->|]; [|done].
    destruct (String.eqb_spec k' k); [congruence|done].
Qed.

Lemma In_dict_set {A} (k k' : string) (v v' : A) (l : list (string * A)) :
  In (k, v) (dict_set k' v' l) -> (k, v) = (k', v') \/ In (k, v) l.
Proof.
  induction l as [|[k1 v1] l IH]; simpl.
  - intros [H|[]]. by left.
  - destruct (String.eqb_spec k1 k') as [->|]; simpl.
    + intros [H|H]; [left; congruence | right; by right].
    + intros [H|H]; [right; by left|].
      destruct (IH H) as [E|E]; [by left | right; by right].
Qed.

Lemma fold_notin (k : string) (l d : list (string * yval)) :
  ~ In k (map fst l) ->
  dget k (fold_left (fun d kv => dict_set kv.1 kv.2 d) l d) = dget k d.
Proof.
  revert d. induction l as [|[k1 v1] l IH]; intros d Hn; simpl in *; [done|].
  rewrite IH by tauto. rewrite dget_dict_set.
  destruct (String.eqb_spec k1 k); [exfalso; tauto|done].
Qed.

Lemma fold_in (k : string) (v : yval) (l d : list (string * yval)) :
  NoDup (map fst l) -> In (k, v) l ->
  dget k (fold_left (fun d kv => dict_set kv.1 kv.2 d) l d) = Some v.
Proof.
  revert d. induction l as [|[k1 v1] l IH]; intros d Hnd Hin; simpl in *; [done|].
  apply NoDup_cons in Hnd as [Hn Hnd].
  destruct Hin as [[= -> ->]|Hin].
  - rewrite fold_notin by (by rewrite <- list_elem_of_In).
    by rewrite dget_dict_set, String.eqb_refl.
  - by apply IH.
Qed.

Lemma fold_In (k : string) (v : yval) (l d : list (string * yval)) :
  In (k, v) (fold_left (fun d kv => dict_set kv.1 kv.2 d) l d) -> In (k, v) d \/ In (k, v) l.
Proof.
  revert d. induction l as [|[k1 v1] l IH]; intros d H; simpl in *; [by left|].
  destruct (IH _ H) as [H1|H1]; [|by right; right].
  destruct (In_dict_set _ _ _ _ _ H1) as [E|E]; [right; left; congruence | by left].
Qed.

(** [flatten] gives distinct dotted keys, each with a leaf. *)
Lemma flat_val_inv (v : yval) :
  forall parent k acc acc', flat_val parent k v acc = Ok acc' ->
  NoDup (map fst acc) -> Forall (fun kv => is_leaf kv.2 = true) acc ->
  NoDup (map fst acc') /\ Forall (fun kv => is_leaf kv.2 = true) acc'.
Proof.
  induction v as [s|l0|kvs IHs] using yval_ind'; intros parent k acc acc' H Hnd Hl.
  1,2: simpl in H; destruct (dget (dot_reducer parent k) acc) eqn:E; [discriminate|];
    injection H as <-; apply dget_notin in E; split;
    [ rewrite map_app; apply NoDup_app; split; [done|]; split;
      [ intros x Hx Hx'; apply list_elem_of_In in Hx; apply list_elem_of_singleton in Hx';
        subst x; done
      | apply NoDup_singleton ]
    | apply Forall_app; split; [done|]; by repeat constructor ].
  simpl in H. revert acc H Hnd Hl.
  induction IHs as [|[k' v'] l Hv Hl' IHl]; intros acc H Hnd Hacc.
  - by injection H as <-.
  - simpl in H, Hv.
    destruct (flat_val (Some (dot_reducer parent k)) k' v' acc) as [acc1|e] eqn:E;
      [|discriminate].
    destruct (Hv _ _ _ _ E Hnd Hacc). by apply (IHl acc1).
Qed.

Lemma flat_items_inv (kvs : list (string * yval)) :
  forall acc acc', flat_items kvs acc = Ok acc' ->
  NoDup (map fst acc) -> Forall (fun kv => is_leaf kv.2 = true) acc ->
  NoDup (map fst acc') /\ Forall (fun kv => is_leaf kv.2 = true) acc'.
Proof.
  induction kvs as [|[k v] kvs IH]; intros acc acc' H Hnd Hl; simpl in H.
  - by injection H as <-.
  - destruct (flat_val None k v acc) as [acc1|e] eqn:E; [|discriminate].
    destruct (flat_val_inv v None k acc acc1 E Hnd Hl). by apply (IH acc1).
Qed.

Lemma flatten_inv (d : yval) (l : list (string * yval)) :
  flatten d = Ok l -> NoDup (map fst l) /\ Forall (fun kv => is_leaf kv.2 = true) l.
Proof.
  destruct d as [s|l0|kvs]; simpl; [discriminate|discriminate|]. intros H.
  apply (flat_items_inv kvs [] l H); constructor.
Qed.

(** Only a dict can be updated. *)
Lemma nested_set_dict_only (d : yval) (ks : list string) (v d' : yval) :
  nested_set d ks v = Ok d' -> exists kvs, d = YMap kvs.
Proof.
  destruct ks as [|k [|k2 ks]]; destruct d as [[s|s]|l|kvs]; simpl; try discriminate;
    try (intros _; by eexists).
  - by destruct (PyStr.contains k s).
  - by destruct (existsb _ l).
Qed.

Lemma nested_set_cons2 (kvs : list (string * yval)) (k k2 : string) (ks : list string)
    (v : yval) :
  nested_set (YMap kvs) (k :: k2 :: ks) v =
  match nested_set (match dget k kvs with Some s => s | None => YMap [] end) (k2 :: ks) v with
  | Ok sub' => Ok (YMap (dict_set k sub' kvs))
  | Err e => Err e
  end.
Proof. reflexivity. Qed.

(** [nested_set_dict] keeps every leaf already set ... *)
Lemma nested_set_keep (ks : list string) :
  forall d v d', nested_set d ks v = Ok d' ->
  forall p u, ylookup p d = Some u -> is_leaf u = true -> ylookup p d' = Some u.
Proof.
  induction ks as [|k ks IH]; intros d v d' H p u Hp Hu; [discriminate|].
  destruct (nested_set_dict_only _ _ _ _ H) as [kvs ->].
  destruct p as [|q p].
  - simpl in Hp. injection Hp as <-. discriminate.
  - simpl in Hp. destruct (dget q kvs) as [x|] eqn:Eq; [|discriminate].
    destruct ks as [|k2 ks].
    + simpl in H. destruct (dget k kvs) eqn:Ek; [discriminate|]. injection H as <-.
      simpl. by rewrite (dget_app_l _ _ _ _ Eq).
    + rewrite nested_set_cons2 in H.
      destruct (nested_set _ (k2 :: ks) v) as [sub'|e] eqn:Ens; [|discriminate].
      injection H as <-. simpl. rewrite dget_dict_set.
      destruct (String.eqb_spec k q) as [->|].
      * rewrite Eq in Ens. by apply (IH x v sub' Ens p u).
      * by rewrite Eq.
Qed.

(** ... and puts the new value at its path. *)
Lemma nested_set_new (ks : list string) :
  forall d v d', nested_set d ks v = Ok d' -> ylookup ks d' = Some v.
Proof.
  induction ks as [|k ks IH]; intros d v d' H; [discriminate|].
  destruct (nested_set_dict_only _ _ _ _ H) as [kvs ->].
  destruct ks as [|k2 ks].
  - simpl in H. destruct (dget k kvs) eqn:Ek; [discriminate|]. injection H as <-.
    simpl. rewrite dget_app_r by done. simpl. by rewrite String.eqb_refl.
  - rewrite nested_set_cons2 in H.
    destruct (nested_set _ (k2 :: ks) v) as [sub'|e] eqn:Ens; [|discriminate].
    injection H as <-. simpl. rewrite dget_dict_set, String.eqb_refl.
    exact (IH _ v sub' Ens).
Qed.

Lemma unflat_go_inv (items : list (string * yval)) :
  forall d R, unflat_go d items = Ok R -> Forall (fun kv => is_leaf kv.2 = true) items ->
  (forall p u, ylookup p d = Some u -> is_leaf u = true -> ylookup p R = Some u) /\
  (forall k v, In (k, v) items -> ylookup (PyStr.split "."%char k) R = Some v).
Proof.
  induction items as [|[fk v] items IH]; intros d R H Hl; simpl in H.
  - injection H as <-. split; [done|]. intros ? ? [].
  - destruct (nested_set d (PyStr.split "."%char fk) v) as [d'|e] eqn:E; [|discriminate].
    inversion Hl as [|? ? Hv Hl']; subst. simpl in Hv.
    destruct (IH d' R H Hl') as [Hkeep Hnew]. split.
    + intros p u Hp Hu. apply Hkeep; [|done]. by apply (nested_set_keep _ d v d' E p u).
    + intros k w [[= -> ->]|Hin].
      * apply Hkeep; [by apply (nested_set_new _ d)|done].
      * by apply Hnew.
Qed.

(** C8 (as the code has it): when [get_config] on two files [A] then [B]
    returns a configuration, each leaf of [B] (by its dotted key) is there
    with [B]'s value and each leaf of [A] whose dotted key [B] does not have
    is there with [A]'s value. *)
Theorem get_config_two_layers (A B R : yval) (fa fb : list (string * yval)) :
  flatten A = Ok fa -> flatten B = Ok fb -> get_config [Some A; Some B] = Ok R ->
  (forall k v, In (k, v) fb -> ylookup (PyStr.split "."%char k) R = Some v) /\
  (forall k v, In (k, v) fa -> ~ In k (map fst fb) ->
     ylookup (PyStr.split "."%char k) R = Some v).
Proof.
  intros HA HB H.
  assert (Hc : collect_lines [Some A; Some B] = Ok (fa ++ fb)%list).
  { simpl. rewrite HA, HB. by rewrite app_nil_r. }
  unfold get_config, unflatten in H. rewrite Hc in H.
  destruct (flatten_inv _ _ HA) as [NDa La]. destruct (flatten_inv _ _ HB) as [NDb Lb].
  assert (Hleaf : Forall (fun kv => is_leaf kv.2 = true) (py_dict (fa ++ fb))).
  { apply List.Forall_forall. intros [k v] Hin. unfold py_dict in Hin.
    destruct (fold_In _ _ _ _ Hin) as [[]|Hin'].
    apply in_app_or in Hin' as [Hin'|Hin'].
    - by apply (List.Forall_forall _ fa) with (x := (k, v)) in La.
    - by apply (List.Forall_forall _ fb) with (x := (k, v)) in Lb. }
  destruct (unflat_go_inv _ _ _ H Hleaf) as [_ Hnew]. split.
  - intros k v Hin. apply Hnew, dget_In. unfold py_dict.
    rewrite fold_left_app. by apply fold_in.
  - intros k v Hin Hn. apply Hnew, dget_In. unfold py_dict.
    rewrite fold_left_app, fold_notin by done. by apply fold_in.
Qed.

Lemma get_config_two_layers_witness :
  ylookup (PyStr.split "."%char "caches.a.path")
    (YMap [("caches", YMap [("a", YMap [("class_", YLeaf (SStr "FSObjectStore"));
                                         ("path", YLeaf (SStr "/var"))])]);
           ("default", YLeaf (SStr "a"))]) = Some (YLeaf (SStr "/var")).
Proof.
  destruct (get_config_two_layers
              (YMap [("caches", YMap [("a", YMap [("class_", YLeaf (SStr "FSObjectStore"));
                                                  ("path", YLeaf (SStr "/tmp"))])]);
                     ("default", YLeaf (SStr "a"))])
              (YMap [("caches", YMap [("a", YMap [("path", YLeaf (SStr "/var"))])])])
              (YMap [("caches", YMap [("a", YMap [("class_", YLeaf (SStr "FSObjectStore"));
                                                  ("path", YLeaf (SStr "/var"))])]);
                     ("default", YLeaf (SStr "a"))])
              [("caches.a.class_", YLeaf (SStr "FSObjectStore")); ("caches.a.path", YLeaf (SStr "/tmp"));
               ("default", YLeaf (SStr "a"))]
              [("caches.a.path", YLeaf (SStr "/var"))]) as [Hb _];
    [reflexivity | reflexivity | reflexivity |].
  apply Hb. left. reflexivity.
Defined.

(** C8, a counterexample: [A = {k: 1, x: {y: 1}}] and [B = {k: 2, x: 5}]:
    each loads on its own, [B] overrides the leaf [k], but the merge raises
    [ValueError] ([x] already holds the mapping built from [x.y]) instead of
    returning a configuration; layering [{k: 1, x: 5}] then
    [{k: 2, x: {y: 1}}] raises [TypeError] ([key in d] on the [int] 5). *)
Lemma get_config_override_raises :
  get_config [Some (YMap [("k", YLeaf (SOther "1")); ("x", YMap [("y", YLeaf (SOther "1"))])])] =
    Ok (YMap [("k", YLeaf (SOther "1")); ("x", YMap [("y", YLeaf (SOther "1"))])]) /\
  get_config [Some (YMap [("k", YLeaf (SOther "2")); ("x", YLeaf (SOther "5"))])] =
    Ok (YMap [("k", YLeaf (SOther "2")); ("x", YLeaf (SOther "5"))]) /\
  get_config [Some (YMap [("k", YLeaf (SOther "1")); ("x", YMap [("y", YLeaf (SOther "1"))])]);
              Some (YMap [("k", YLeaf (SOther "2")); ("x", YLeaf (SOther "5"))])] = Err ValueError /\
  get_config [Some (YMap [("k", YLeaf (SOther "1")); ("x", YLeaf (SOther "5"))]);
              Some (YMap [("k", YLeaf (SOther "2")); ("x", YMap [("y", YLeaf (SOther "1"))])])] =
    Err TypeError.
Proof. repeat split; reflexivity. Qed.

End ConfigFacts.

(** ** Round trip on the dictionary and Redis backends *)

(** [put(k, v)] then [get(k)] gives [v] back on [LocalObjectStore] and
    [RedisObjectStore]. *)
Theorem put_get_roundtrip_local_redis (lib : PyLib) (S : store) (k : string) (v : pyval)
    (w : world) :
  (st_kind S = LocalObjectStore \/ st_kind S = RedisObjectStore) ->
  fst ((let* _ := store_put lib S k v in store_get lib S k) w) = Ok v.
Proof.
  unfold store_put, store_get. intros [Hk | Hk]; rewrite Hk.
  - unfold local_put, local_get, bind, Shelf.open_, Shelf.close, ret.
    destruct (w_shelves w !! PathLib.resolve (store_path S)) as [db|]; simpl;
      by rewrite !lookup_insert_eq.
  - unfold redis_put, redis_get, bind, Redis.set, Redis.get. simpl.
    by rewrite lookup_insert_eq.
Qed.

Lemma put_get_roundtrip_local_redis_witness :
  fst ((let* _ := store_put lib_example (Store LocalObjectStore "b" "" "/data" false) "k"
                    (PInt 7) in
        store_get lib_example (Store LocalObjectStore "b" "" "/data" false) "k")
         empty_world) = Ok (PInt 7).
Proof. apply put_get_roundtrip_local_redis. left. reflexivity. Defined.

(** ** Redis queues: order, bounds and the other methods *)

Lemma bind_ret_fst {A B} (m : M A) (g : A -> B) (w : world) (a : A) :
  fst (m w) = Ok a -> fst (bind m (fun x => ret (g x)) w) = Ok (g a).
Proof.
  unfold bind, ret. destruct (m w) as [[a'|e] w']; simpl; congruence.
Qed.

Lemma map_lookup {A B} (f : A -> B) (l : list A) (i : nat) :
  map f l !! i = option_map f (l !! i).
Proof. revert i. induction l as [|x l IH]; intros [|i]; simpl; auto. Qed.

Lemma push_unbounded (q : Queue.queue) (v : pyval) (l : list blob) (w : world) :
  Queue.q_max_length q = None -> w_redis w !! Queue.q_key q = Redis.list_at l ->
  Queue.push q v w =
    (Ok (Z.of_nat (S (length l))),
     set_redis (<[Queue.q_key q := RVList (BlobPickle v :: l)]> (w_redis w)) w).
Proof.
  intros Hm Hw. unfold Queue.push, bind, Redis.lpush. rewrite Hw, Hm.
  destruct l; reflexivity.
Qed.

Lemma push_all_unbounded (q : Queue.queue) (vs : list pyval) :
  Queue.q_max_length q = None ->
  forall (l : list blob) (w : world), w_redis w !! Queue.q_key q = Redis.list_at l ->
  w_redis (snd (Queue.push_all q vs w)) !! Queue.q_key q =
    Redis.list_at (rev (map BlobPickle vs) ++ l)%list /\
  fst (Queue.push_all q vs w) = Ok tt.
Proof.
  intros Hm. induction vs as [|v vs IH]; intros l w Hw.
  - by split.
  - simpl. cbv [bind]. rewrite (push_unbounded q v l w Hm Hw).
    destruct (IH (BlobPickle v :: l)
                 (set_redis (<[Queue.q_key q := RVList (BlobPickle v :: l)]> (w_redis w)) w))
      as [H1 H2].
    { simpl. by rewrite lookup_insert_eq. }
    rewrite <- app_assoc. simpl. split; assumption.
Qed.

Lemma pop_last (q : Queue.queue) (l : list blob) (v : pyval) (w : world) :
  w_redis w !! Queue.q_key q = Redis.list_at (l ++ [BlobPickle v])%list ->
  exists w', Queue.pop q w = (Ok v, w') /\ w_redis w' !! Queue.q_key q = Redis.list_at l.
Proof.
  intros Hw. unfold Queue.pop, bind, Redis.rpop. rewrite Hw.
  assert (Hne : Redis.list_at (l ++ [BlobPickle v])%list =
                Some (RVList (l ++ [BlobPickle v])%list)) by (by destruct l).
  rewrite Hne, last_snoc, removelast_last.
  destruct l as [|b l]; eexists; (split; [reflexivity|]); simpl.
  - by rewrite lookup_delete_eq.
  - by rewrite lookup_insert_eq.
Qed.

Lemma pop_empty (q : Queue.queue) (w : world) :
  w_redis w !! Queue.q_key q = None -> Queue.pop q w = (Ok PNone, w).
Proof. intros Hw. unfold Queue.pop, bind, Redis.rpop. by rewrite Hw. Qed.

Lemma ipop_fuel_prefix (q : Queue.queue) (R : list blob) (pre : list pyval) :
  Forall (fun v => v <> PNone) pre ->
  (R = [] \/ exists R', R = (R' ++ [BlobPickle PNone])%list) ->
  forall (f : nat) (w : world), length pre < f ->
  w_redis w !! Queue.q_key q = Redis.list_at (R ++ rev (map BlobPickle pre))%list ->
  fst (Queue.ipop_fuel q f w) = Ok pre.
Proof.
  intros Hpre HR. induction pre as [|p pre IH]; intros f w Hf Hw.
  - destruct f as [|f]; [simpl in Hf; lia|]. simpl in Hw. rewrite app_nil_r in Hw.
    simpl. unfold bind at 1.
    destruct HR as [-> | [R' ->]].
    + by rewrite (pop_empty q w Hw).
    + destruct (pop_last q R' PNone w Hw) as [w' [Hp _]]. by rewrite Hp.
  - apply List.Forall_cons_iff in Hpre as [Hp Hpre'].
    destruct f as [|f]; [simpl in Hf; lia|].
    simpl in Hw. rewrite app_assoc in Hw.
    destruct (pop_last q (R ++ rev (map BlobPickle pre)) p w Hw) as [w' [Hpop Hw']].
    simpl. unfold bind at 1. rewrite Hpop.
    destruct p; try congruence;
      apply bind_ret_fst; (apply (IH Hpre'); [simpl in Hf; lia | exact Hw']).
Qed.

(** ** Bounded queues *)

Lemma slice_prefix {A} (l : list A) (m : Z) :
  l <> [] -> (0 <= m)%Z ->
  Redis.slice l (Z.of_nat (length l)) 0 m = firstn (Z.to_nat m + 1) l.
Proof.
  intros Hne Hm. unfold Redis.slice, Redis.window.
  assert (Hl : (1 <= Z.of_nat (length l))%Z) by (destruct l; [done|simpl; lia]).
  simpl. destruct (Z.ltb_spec m 0); [lia|].
  destruct (Z.gtb_spec 0 m); [lia|].
  destruct (Z.geb_spec 0 (Z.of_nat (length l))); [lia|].
  simpl. destruct (Z.geb_spec m (Z.of_nat (length l))).
  - rewrite (take_ge l (Z.to_nat m + 1)) by lia. apply take_ge. lia.
  - f_equal. lia.
Qed.

Lemma firstn_app_firstn {A} (a b : list A) (n k : nat) :
  n <= k -> firstn n (a ++ firstn k b) = firstn n (a ++ b).
Proof.
  revert n k. induction a as [|x a IH]; intros n k Hn; simpl.
  - rewrite firstn_firstn. f_equal. lia.
  - destruct n as [|n]; [done|]. simpl. f_equal. apply IH. lia.
Qed.

Lemma push_bounded (q : Queue.queue) (m : Z) (v : pyval) (l : list blob) (w : world) :
  Queue.q_max_length q = Some m -> (0 <= m)%Z ->
  w_redis w !! Queue.q_key q = Redis.list_at l ->
  exists r, Queue.push q v w =
    (Ok r, set_redis (<[Queue.q_key q := RVList (firstn (Z.to_nat m + 1) (BlobPickle v :: l))]>
                        (w_redis w)) w).
Proof.
  intros Hml Hm Hw. unfold Queue.push, bind, Redis.lpush. rewrite Hw, Hml.
  assert (Hl : match Redis.list_at l with
               | None => (Ok 1%Z, set_redis (<[Queue.q_key q := RVList [BlobPickle v]]> (w_redis w)) w)
               | Some (RVList l0) =>
                   (Ok (Z.of_nat (S (length l0))),
                    set_redis (<[Queue.q_key q := RVList (BlobPickle v :: l0)]> (w_redis w)) w)
               | Some _ => (Err ResponseError, w)
               end = (Ok (Z.of_nat (S (length l))),
                      set_redis (<[Queue.q_key q := RVList (BlobPickle v :: l)]> (w_redis w)) w))
    by (destruct l; reflexivity).
  rewrite Hl. unfold Redis.ltrim. simpl. rewrite lookup_insert_eq.
  rewrite (slice_prefix (BlobPickle v :: l)) by (done || lia).
  replace (Z.to_nat m + 1) with (S (Z.to_nat m)) by lia. simpl.
  eexists. unfold ret. simpl. by rewrite insert_insert_eq.
Qed.

Lemma push_all_bounded (q : Queue.queue) (m : Z) (vs : list pyval) :
  Queue.q_max_length q = Some m -> (0 <= m)%Z ->
  forall (l : list blob) (w : world), length l <= Z.to_nat m + 1 ->
  w_redis w !! Queue.q_key q = Redis.list_at l ->
  fst (Queue.push_all q vs w) = Ok tt /\
  w_redis (snd (Queue.push_all q vs w)) !! Queue.q_key q =
    Redis.list_at (firstn (Z.to_nat m + 1) (rev (map BlobPickle vs) ++ l)%list).
Proof.
  intros Hml Hm. induction vs as [|v vs IH]; intros l w Hlen Hw.
  - simpl. split; [done|]. by rewrite take_ge.
  - destruct (push_bounded q m v l w Hml Hm Hw) as [r Hr].
    simpl. cbv [bind]. rewrite Hr.
    set (l' := firstn (Z.to_nat m + 1) (BlobPickle v :: l)).
    destruct (IH l' (set_redis (<[Queue.q_key q := RVList l']> (w_redis w)) w)) as [H1 H2].
    + unfold l'. rewrite length_take. lia.
    + simpl. rewrite lookup_insert_eq. unfold l'.
      replace (Z.to_nat m + 1) with (S (Z.to_nat m)) by lia. done.
    + split; [exact H1|]. rewrite H2. unfold l'.
      rewrite firstn_app_firstn by lia. by rewrite <- app_assoc.
Qed.

(** ** Reading a queue by index *)

Lemma lindex_nonneg (k : string) (L : list blob) (i : Z) (w : world) :
  w_redis w !! k = Redis.list_at L -> (0 <= i)%Z ->
  Redis.lindex k i w = (Ok (L !! Z.to_nat i), w).
Proof.
  intros Hw Hi. unfold Redis.lindex. rewrite Hw.
  destruct L as [|b L]; [done|]. simpl.
  destruct (Z.ltb_spec i 0); [lia|]. destruct (Z.ltb_spec i 0); [lia|]. done.
Qed.

Lemma lindex_neg (k : string) (L : list blob) (i : nat) (w : world) :
  w_redis w !! k = Redis.list_at L ->
  Redis.lindex k (- Z.of_nat i - 1)%Z w = (Ok (rev L !! i), w).
Proof.
  intros Hw. unfold Redis.lindex. rewrite Hw.
  destruct L as [|b L]; [done|]. cbn [Redis.list_at]. cbv zeta.
  destruct (Z.ltb_spec (- Z.of_nat i - 1) 0); [|lia].
  rewrite rev_alt. fold (reverse (b :: L)).
  destruct (Z.ltb_spec (Z.of_nat (length (b :: L)) + (- Z.of_nat i - 1)) 0).
  - symmetry. f_equal. f_equal. apply lookup_ge_None_2. rewrite length_reverse. lia.
  - rewrite reverse_lookup by lia. do 3 f_equal. lia.
Qed.

Lemma lindex_all_up (k : string) (l : list pyval) (w : world) :
  w_redis w !! k = Redis.list_at (map BlobPickle l) ->
  forall n s, Queue.lindex_all k (map Z.of_nat (seq s n)) w = (Ok (firstn n (drop s l)), w).
Proof.
  intros Hw n. induction n as [|n IH]; intros s; [done|].
  simpl. unfold bind at 1. rewrite (lindex_nonneg k _ _ w Hw) by lia.
  rewrite Nat2Z.id, map_lookup.
  destruct (l !! s) as [x|] eqn:Hx; simpl.
  - unfold bind, ret. simpl. rewrite IH. by rewrite (drop_S l x s Hx).
  - rewrite IH. apply lookup_ge_None_1 in Hx.
    rewrite (drop_ge l (S s)), (drop_ge l s) by lia. by rewrite !firstn_nil.
Qed.

Lemma lindex_all_down (k : string) (l : list pyval) (w : world) :
  w_redis w !! k = Redis.list_at (map BlobPickle l) ->
  forall n s, Queue.lindex_all k (map (fun i => - Z.of_nat i - 1)%Z (seq s n)) w =
    (Ok (firstn n (drop s (rev l))), w).
Proof.
  intros Hw n. induction n as [|n IH]; intros s; [done|].
  simpl. unfold bind at 1. rewrite (lindex_neg k _ s w Hw).
  rewrite <- map_rev, map_lookup.
  destruct (rev l !! s) as [x|] eqn:Hx; simpl.
  - unfold bind, ret. simpl. rewrite IH. by rewrite (drop_S (rev l) x s Hx).
  - rewrite IH. apply lookup_ge_None_1 in Hx.
    rewrite (drop_ge (rev l) (S s)), (drop_ge (rev l) s) by lia. by rewrite !firstn_nil.
Qed.

Lemma llen_at (k : string) (L : list blob) (w : world) :
  w_redis w !! k = Redis.list_at L -> Redis.llen k w = (Ok (Z.of_nat (length L)), w).
Proof. intros Hw. unfold Redis.llen. rewrite Hw. by destruct L. Qed.

Lemma contents_list_at (q : Queue.queue) (L : list blob) (w : world) :
  w_redis w !! Queue.q_key q = Redis.list_at L -> Queue.contents q w = L.
Proof. intros Hw. unfold Queue.contents. rewrite Hw. by destruct L. Qed.

(** [RedisQueue] is first in, first out, and [ipop] stops at the first
    [None]: on a queue without [max_length] whose key is empty, pushing the
    values [pre ++ rest] one by one and then draining the queue with
    [list(q.ipop())] gives [pre] in push order, when no value of [pre] is
    [None] and [rest] is empty or starts with [None]. *)
Theorem queue_ipop_fifo (q : Queue.queue) (pre rest : list pyval) (w : world) :
  Queue.q_max_length q = None -> w_redis w !! Queue.q_key q = None ->
  Forall (fun v => v <> PNone) pre -> (rest = [] \/ hd_error rest = Some PNone) ->
  fst (Queue.ipop q (snd (Queue.push_all q (pre ++ rest) w))) = Ok pre.
Proof.
  intros Hm Hw Hpre Hrest.
  destruct (push_all_unbounded q (pre ++ rest) Hm [] w Hw) as [Hk _].
  rewrite app_nil_r, map_app, rev_app_distr in Hk.
  unfold Queue.ipop.
  apply (ipop_fuel_prefix q (rev (map BlobPickle rest)) pre Hpre).
  - destruct Hrest as [-> | Hh]; [by left|].
    destruct rest as [|r rest]; [discriminate|]. simpl in Hh. injection Hh as ->.
    right. exists (rev (map BlobPickle rest)). reflexivity.
  - rewrite (contents_list_at q _ _ Hk), length_app, !length_rev, !length_map. lia.
  - exact Hk.
Qed.

Lemma queue_ipop_fifo_witness :
  fst (Queue.ipop (Queue.MkQueue "b/q" None)
         (snd (Queue.push_all (Queue.MkQueue "b/q" None)
                 ([PInt 1; PInt 2] ++ [PNone; PInt 4]) empty_world))) = Ok [PInt 1; PInt 2].
Proof.
  apply queue_ipop_fifo; [reflexivity | reflexivity | | right; reflexivity].
  repeat constructor; discriminate.
Defined.

(** On a queue without [max_length], [unpush] right after [push(v)] returns
    [v] and leaves Redis exactly as it was (the key empty, or holding a
    non-empty list). *)
Theorem queue_push_unpush (q : Queue.queue) (v : pyval) (l : list blob) (w : world) :
  Queue.q_max_length q = None -> w_redis w !! Queue.q_key q = Redis.list_at l ->
  (let* _ := Queue.push q v in Queue.unpush q) w = (Ok v, w).
Proof.
  intros Hm Hw. unfold bind at 1. rewrite (push_unbounded q v l w Hm Hw).
  unfold Queue.unpush, bind, Redis.lpop. simpl. rewrite lookup_insert_eq. simpl.
  destruct l as [|b l].
  - rewrite delete_insert_id by exact Hw. unfold ret. by destruct w.
  - rewrite insert_insert_eq, insert_id by exact Hw. unfold ret. by destruct w.
Qed.

Lemma queue_push_unpush_witness :
  (let* _ := Queue.push (Queue.MkQueue "b/q" None) (PStr "x") in
   Queue.unpush (Queue.MkQueue "b/q" None)) empty_world = (Ok (PStr "x"), empty_world).
Proof. apply (queue_push_unpush _ _ []); reflexivity. Defined.

(** A queue with [max_length] [m >= 0] keeps exactly the newest [m + 1]
    values, newest first: after pushing [vs] one by one on an empty key the
    list holds the first [m + 1] of [reversed(vs)], so it never grows
    beyond [m + 1] items. *)
Theorem queue_bounded_keeps_newest (q : Queue.queue) (m : Z) (vs : list pyval) (w : world) :
  Queue.q_max_length q = Some m -> (0 <= m)%Z -> w_redis w !! Queue.q_key q = None ->
  fst (Queue.push_all q vs w) = Ok tt /\
  Queue.contents q (snd (Queue.push_all q vs w)) =
    firstn (Z.to_nat m + 1) (rev (map BlobPickle vs)) /\
  length (Queue.contents q (snd (Queue.push_all q vs w))) <= Z.to_nat m + 1.
Proof.
  intros Hml Hm Hw.
  destruct (push_all_bounded q m vs Hml Hm [] w) as [H1 H2]; [simpl; lia | exact Hw |].
  rewrite app_nil_r in H2. rewrite (contents_list_at q _ _ H2).
  split; [exact H1|]. split; [reflexivity|]. rewrite length_take. lia.
Qed.

Lemma queue_bounded_keeps_newest_witness :
  fst (Queue.push_all (Queue.MkQueue "b/q" (Some 1%Z)) [PInt 1; PInt 2; PInt 3; PInt 4]
         empty_world) = Ok tt /\
  Queue.contents (Queue.MkQueue "b/q" (Some 1%Z))
    (snd (Queue.push_all (Queue.MkQueue "b/q" (Some 1%Z)) [PInt 1; PInt 2; PInt 3; PInt 4]
            empty_world)) = [BlobPickle (PInt 4); BlobPickle (PInt 3)] /\
  length (Queue.contents (Queue.MkQueue "b/q" (Some 1%Z))
    (snd (Queue.push_all (Queue.MkQueue "b/q" (Some 1%Z)) [PInt 1; PInt 2; PInt 3; PInt 4]
            empty_world))) <= 2.
Proof.
  apply (queue_bounded_keeps_newest (Queue.MkQueue "b/q" (Some 1%Z)) 1%Z); reflexivity || lia.
Defined.

(** Reading a queue whose list holds the values [l] (newest first, as
    [LPUSH] leaves them): [list(q)] is [l], [list(q.head(n))] the first [n]
    of [l] and [list(q.tail(n))] the last [n] of [l] from the oldest on;
    fewer when the queue is shorter, none for [n <= 0].  None of them
    changes Redis. *)
Theorem queue_iter_head_tail (q : Queue.queue) (l : list pyval) (n : Z) (w : world) :
  w_redis w !! Queue.q_key q = Redis.list_at (map BlobPickle l) ->
  Queue.iter q w = (Ok l, w) /\
  Queue.head q n w = (Ok (firstn (Z.to_nat n) l), w) /\
  Queue.tail q n w = (Ok (firstn (Z.to_nat n) (rev l)), w).
Proof.
  intros Hw. split; [|split].
  - unfold Queue.iter, Queue.len, bind at 1. rewrite (llen_at _ _ w Hw).
    unfold Queue.range_up. rewrite length_map, Nat2Z.id, (lindex_all_up _ l w Hw).
    by rewrite drop_0, firstn_all.
  - unfold Queue.head, Queue.range_up. by rewrite (lindex_all_up _ l w Hw), drop_0.
  - unfold Queue.tail, Queue.range_down. by rewrite (lindex_all_down _ l w Hw), drop_0.
Qed.

Lemma queue_iter_head_tail_witness :
  Queue.iter (Queue.MkQueue "b/q" None)
    (snd (Queue.push_all (Queue.MkQueue "b/q" None) [PInt 1; PInt 2; PInt 3] empty_world)) =
    (Ok [PInt 3; PInt 2; PInt 1],
     snd (Queue.push_all (Queue.MkQueue "b/q" None) [PInt 1; PInt 2; PInt 3] empty_world)) /\
  Queue.head (Queue.MkQueue "b/q" None) 2
    (snd (Queue.push_all (Queue.MkQueue "b/q" None) [PInt 1; PInt 2; PInt 3] empty_world)) =
    (Ok [PInt 3; PInt 2],
     snd (Queue.push_all (Queue.MkQueue "b/q" None) [PInt 1; PInt 2; PInt 3] empty_world)) /\
  Queue.tail (Queue.MkQueue "b/q" None) 2
    (snd (Queue.push_all (Queue.MkQueue "b/q" None) [PInt 1; PInt 2; PInt 3] empty_world)) =
    (Ok [PInt 1; PInt 2],
     snd (Queue.push_all (Queue.MkQueue "b/q" None) [PInt 1; PInt 2; PInt 3] empty_world)).
Proof.
  apply (queue_iter_head_tail (Queue.MkQueue "b/q" None) [PInt 3; PInt 2; PInt 1] 2).
  vm_compute. reflexivity.
Defined.

(** [RedisQueue.is_member] calls [SISMEMBER] on the queue's list, so on a
    queue without [max_length] it raises Redis's [WRONGTYPE] error as soon
    as anything has been pushed. *)
Theorem queue_is_member_after_push (q : Queue.queue) (v u : pyval) (l : list blob) (w : world) :
  Queue.q_max_length q = None -> w_redis w !! Queue.q_key q = Redis.list_at l ->
  fst ((let* _ := Queue.push q v in Queue.is_member q u) w) = Err ResponseError.
Proof.
  intros Hm Hw. unfold bind. rewrite (push_unbounded q v l w Hm Hw).
  unfold Queue.is_member, Redis.sismember. simpl. by rewrite lookup_insert_eq.
Qed.

Lemma queue_is_member_after_push_witness :
  fst ((let* _ := Queue.push (Queue.MkQueue "b/q" None) (PInt 1) in
        Queue.is_member (Queue.MkQueue "b/q" None) (PInt 1)) empty_world) = Err ResponseError.
Proof. apply (queue_is_member_after_push _ _ _ []); reflexivity. Defined.

(** [clear] empties a queue: afterwards [len] is [0], [pop] returns [None]
    and iterating yields nothing. *)
Theorem queue_clear_empties (q : Queue.queue) (w : world) :
  fst ((let* _ := Queue.clear q in Queue.len q) w) = Ok 0%Z /\
  fst ((let* _ := Queue.clear q in Queue.pop q) w) = Ok PNone /\
  fst ((let* _ := Queue.clear q in Queue.iter q) w) = Ok [].
Proof.
  unfold Queue.clear, Redis.del, Queue.len, Queue.pop, Queue.iter, Redis.llen,
    Redis.rpop, bind. simpl.
  rewrite !lookup_delete_eq. repeat split.
  unfold Queue.len, Redis.llen. simpl. by rewrite lookup_delete_eq.
Qed.

(** ** Redis sets *)

Lemma sadd_step (k : string) (b : blob) (ms : list blob) (w : world) :
  w_redis w !! k = Redis.set_at ms -> NoDup ms ->
  exists n w' ms', Redis.sadd k b w = (Ok n, w') /\ w_redis w' !! k = Redis.set_at ms' /\
    NoDup ms' /\ (forall c, c ∈ ms' <-> c ∈ ms \/ c = b).
Proof.
  intros Hw Hnd. unfold Redis.sadd. rewrite Hw. destruct ms as [|m0 ms0].
  - exists 1%Z, (set_redis (<[k := RVSet [b]]> (w_redis w)) w), [b].
    split; [reflexivity|]. simpl. rewrite lookup_insert_eq.
    split; [reflexivity|]. split; [apply NoDup_singleton|]. set_solver.
  - simpl. destruct (decide (b ∈ m0 :: ms0)) as [Hin|Hin].
    + exists 0%Z, w, (m0 :: ms0). split; [done|]. split; [exact Hw|]. split; [done|].
      set_solver.
    + exists 1%Z, (set_redis (<[k := RVSet ((m0 :: ms0) ++ [b])%list]> (w_redis w)) w),
        ((m0 :: ms0) ++ [b])%list.
      split; [reflexivity|]. simpl. rewrite lookup_insert_eq.
      split; [reflexivity|]. split.
      * change (NoDup ((m0 :: ms0) ++ [b])%list). apply NoDup_app. split; [done|].
        split; [|apply NoDup_singleton]. set_solver.
      * change (forall c, c ∈ ((m0 :: ms0) ++ [b])%list <-> c ∈ m0 :: ms0 \/ c = b). set_solver.
Qed.

Lemma rset_add_coll (k : string) (c : list pyval -> pyval) (x : pyval) (l : list pyval)
    (w w1 : world) (r : pyval) :
  (c = PList \/ c = PTuple \/ c = PSet) ->
  RSet.add k x w = (Ok r, w1) -> RSet.add k (c (x :: l)) w = RSet.add k (c l) w1.
Proof.
  intros [-> | [-> | ->]] Hx; simpl; cbv [bind]; rewrite Hx; reflexivity.
Qed.

Lemma rset_members_coll (c : list pyval -> pyval) (x : pyval) (l : list pyval) :
  (c = PList \/ c = PTuple \/ c = PSet) ->
  RSet.members_of (c (x :: l)) = (RSet.members_of x ++ RSet.members_of (c l))%list.
Proof. intros [-> | [-> | ->]]; reflexivity. Qed.

Lemma rset_add_spec (k : string) (v : pyval) :
  forall (ms : list blob) (w : world), w_redis w !! k = Redis.set_at ms -> NoDup ms ->
  exists r w' ms', RSet.add k v w = (Ok r, w') /\ w_redis w' !! k = Redis.set_at ms' /\
    NoDup ms' /\ (forall b, b ∈ ms' <-> b ∈ ms \/ b ∈ map BlobPickle (RSet.members_of v)).
Proof.
  assert (Hscalar : forall u, RSet.add k u = (let* n := Redis.sadd k (BlobPickle u) in
                                              ret (PInt n)) ->
            RSet.members_of u = [u] ->
            forall ms w, w_redis w !! k = Redis.set_at ms -> NoDup ms ->
            exists r w' ms', RSet.add k u w = (Ok r, w') /\ w_redis w' !! k = Redis.set_at ms' /\
              NoDup ms' /\ (forall b, b ∈ ms' <-> b ∈ ms \/ b ∈ map BlobPickle (RSet.members_of u))).
  { intros u Hadd Hmem ms w Hw Hnd. rewrite Hadd, Hmem.
    destruct (sadd_step k (BlobPickle u) ms w Hw Hnd) as (n & w' & ms' & Hs & H1 & H2 & H3).
    exists (PInt n), w', ms'. unfold bind. rewrite Hs. split; [done|]. split; [done|].
    split; [done|]. intros b. rewrite H3. simpl. set_solver. }
  assert (Hcoll : forall c, (c = PList \/ c = PTuple \/ c = PSet) ->
            forall l, Forall (fun v => forall ms w, w_redis w !! k = Redis.set_at ms -> NoDup ms ->
              exists r w' ms', RSet.add k v w = (Ok r, w') /\ w_redis w' !! k = Redis.set_at ms' /\
              NoDup ms' /\ (forall b, b ∈ ms' <-> b ∈ ms \/ b ∈ map BlobPickle (RSet.members_of v))) l ->
            forall ms w, w_redis w !! k = Redis.set_at ms -> NoDup ms ->
            exists r w' ms', RSet.add k (c l) w = (Ok r, w') /\ w_redis w' !! k = Redis.set_at ms' /\
              NoDup ms' /\ (forall b, b ∈ ms' <-> b ∈ ms \/ b ∈ map BlobPickle (RSet.members_of (c l)))).
  { intros c Hc l Hl. induction Hl as [|x l Hx Hl IH]; intros ms w Hw Hnd.
    - exists PNone, w, ms. split; [destruct Hc as [-> | [-> | ->]]; reflexivity|].
      split; [done|]. split; [done|].
      destruct Hc as [-> | [-> | ->]]; simpl; set_solver.
    - destruct (Hx ms w Hw Hnd) as (r1 & w1 & ms1 & Ha1 & Hw1 & Hnd1 & Hm1).
      destruct (IH ms1 w1 Hw1 Hnd1) as (r2 & w2 & ms2 & Ha2 & Hw2 & Hnd2 & Hm2).
      exists r2, w2, ms2. rewrite (rset_add_coll k c x l w w1 r1 Hc Ha1).
      split; [done|]. split; [done|]. split; [done|].
      intros b. rewrite Hm2, Hm1, (rset_members_coll c x l Hc), map_app. set_solver. }
  induction v as [| | | | | l Hl | l Hl | kv | l Hl] using pyval_coll_ind.
  all: try (apply Hscalar; reflexivity).
  - by apply (Hcoll PList); [left|].
  - by apply (Hcoll PTuple); [right; left|].
  - by apply (Hcoll PSet); [right; right|].
Qed.

Lemma smembers_at (k : string) (ms : list blob) (w : world) :
  w_redis w !! k = Redis.set_at ms -> Redis.smembers k w = (Ok ms, w).
Proof. intros Hw. unfold Redis.smembers. rewrite Hw. by destruct ms. Qed.

Lemma sismember_at (k : string) (ms : list blob) (b : blob) (w : world) :
  w_redis w !! k = Redis.set_at ms ->
  Redis.sismember k b w = (Ok (if decide (b ∈ ms) then 1 else 0)%Z, w).
Proof.
  intros Hw. unfold Redis.sismember. rewrite Hw.
  destruct ms as [|m0 ms0]; [|done]. rewrite decide_False; [done|]. set_solver.
Qed.

Lemma filter_keep_all {A} (P : A -> Prop) `{forall x, Decision (P x)} (l : list A) :
  (forall x, x ∈ l -> P x) -> filter P l = l.
Proof.
  induction l as [|x l IH]; intros Hl; [done|].
  rewrite filter_cons, decide_True by set_solver. f_equal. apply IH. set_solver.
Qed.

Lemma srem_step (k : string) (b : blob) (ms : list blob) (w : world) :
  w_redis w !! k = Redis.set_at ms ->
  exists w', Redis.srem k b w = (Ok (if decide (b ∈ ms) then 1 else 0)%Z, w') /\
    w_redis w' !! k = Redis.set_at (filter (fun x => x <> b) ms) /\
    (forall j, j <> k -> w_redis w' !! j = w_redis w !! j).
Proof.
  intros Hw. unfold Redis.srem. rewrite Hw. destruct ms as [|m0 ms0].
  - exists w. rewrite decide_False by set_solver. split; [done|]. split; [exact Hw|done].
  - simpl Redis.set_at. destruct (decide (b ∈ m0 :: ms0)) as [Hin|Hin];
      [rewrite !decide_True by exact Hin | rewrite !decide_False by exact Hin].
    + destruct (filter (fun x => x <> b) (m0 :: ms0)) as [|x l] eqn:E; eexists;
        (split; [reflexivity|]); simpl.
      * rewrite lookup_delete_eq. split; [done|]. intros j Hj. by rewrite lookup_delete_ne.
      * rewrite lookup_insert_eq. split; [done|]. intros j Hj. by rewrite lookup_insert_ne.
    + exists w. split; [done|]. rewrite filter_keep_all by set_solver. split; [exact Hw|done].
Qed.

Lemma sadd_other (k j : string) (b : blob) (w : world) :
  j <> k -> w_redis (snd (Redis.sadd k b w)) !! j = w_redis w !! j.
Proof.
  intros Hj. unfold Redis.sadd.
  destruct (w_redis w !! k) as [[b'|l|l]|]; simpl; try done.
  - destruct (decide (b ∈ l)); simpl; [done|]. by rewrite lookup_insert_ne.
  - by rewrite lookup_insert_ne.
Qed.

(** [RedisSet.add(v)] on a key that holds a set (or nothing) adds [v], or,
    for a list, tuple or set, recursively the values it contains: afterwards
    [SMEMBERS] lists, without duplicates, exactly the former members and
    those values, and each of those values is a member. *)
Theorem rset_add_members (k : string) (v : pyval) (ms : list blob) (w : world) :
  w_redis w !! k = Redis.set_at ms -> NoDup ms ->
  exists r w' ms', RSet.add k v w = (Ok r, w') /\ Redis.smembers k w' = (Ok ms', w') /\
    NoDup ms' /\ (forall b, b ∈ ms' <-> b ∈ ms \/ b ∈ map BlobPickle (RSet.members_of v)) /\
    (forall x, x ∈ RSet.members_of v -> RSet.is_member k x w' = (Ok 1%Z, w')).
Proof.
  intros Hw Hnd.
  destruct (rset_add_spec k v ms w Hw Hnd) as (r & w' & ms' & Ha & Hw' & Hnd' & Hm).
  exists r, w', ms'. split; [done|]. split; [by apply smembers_at|].
  split; [done|]. split; [done|].
  intros x Hx. unfold RSet.is_member. rewrite (sismember_at k ms' _ w' Hw').
  rewrite decide_True; [done|]. apply Hm. right.
  apply list_elem_of_In, in_map, list_elem_of_In, Hx.
Qed.

Lemma rset_add_members_witness :
  exists r w' ms', RSet.add "b/s" (PList [PInt 1; PTuple [PInt 2; PInt 1]]) empty_world = (Ok r, w') /\
    Redis.smembers "b/s" w' = (Ok ms', w') /\ NoDup ms' /\
    (forall b, b ∈ ms' <-> b ∈ [] \/
       b ∈ map BlobPickle (RSet.members_of (PList [PInt 1; PTuple [PInt 2; PInt 1]]))) /\
    (forall x, x ∈ RSet.members_of (PList [PInt 1; PTuple [PInt 2; PInt 1]]) ->
       RSet.is_member "b/s" x w' = (Ok 1%Z, w')).
Proof. apply rset_add_members; [reflexivity | constructor]. Defined.

(** [RedisSet.remove(v)] answers [1] when [v] was a member and [0]
    otherwise; afterwards the set holds its other members and [v] is not a
    member. *)
Theorem rset_remove_member (k : string) (v : pyval) (ms : list blob) (w : world) :
  w_redis w !! k = Redis.set_at ms ->
  exists w', RSet.remove k v w = (Ok (if decide (BlobPickle v ∈ ms) then 1 else 0)%Z, w') /\
    Redis.smembers k w' = (Ok (filter (fun b => b <> BlobPickle v) ms), w') /\
    RSet.is_member k v w' = (Ok 0%Z, w').
Proof.
  intros Hw. destruct (srem_step k (BlobPickle v) ms w Hw) as (w' & Hs & Hw' & _).
  exists w'. split; [exact Hs|]. split; [by apply smembers_at|].
  unfold RSet.is_member. rewrite (sismember_at k _ _ w' Hw').
  rewrite decide_False; [done|]. intros Hin. apply list_elem_of_filter in Hin. tauto.
Qed.

Lemma rset_remove_member_witness :
  exists w', RSet.remove "b/s" (PInt 1) (snd (RSet.add "b/s" (PList [PInt 1; PInt 2]) empty_world)) =
    (Ok (if decide (BlobPickle (PInt 1) ∈ [BlobPickle (PInt 1); BlobPickle (PInt 2)]) then 1 else 0)%Z, w') /\
    Redis.smembers "b/s" w' =
      (Ok (filter (fun b => b <> BlobPickle (PInt 1)) [BlobPickle (PInt 1); BlobPickle (PInt 2)]), w') /\
    RSet.is_member "b/s" (PInt 1) w' = (Ok 0%Z, w').
Proof. apply rset_remove_member. reflexivity. Defined.

(** [RedisSet.move(other, v)] between two distinct keys that hold sets,
    with [v] a member of the first: it answers [1], [v] leaves the first set
    (its other members stay) and joins the second, without duplicates. *)
Theorem rset_move_member (k1 k2 : string) (v : pyval) (ms1 ms2 : list blob) (w : world) :
  k1 <> k2 -> w_redis w !! k1 = Redis.set_at ms1 -> w_redis w !! k2 = Redis.set_at ms2 ->
  NoDup ms2 -> BlobPickle v ∈ ms1 ->
  exists w' ms2', RSet.move k1 k2 v w = (Ok 1%Z, w') /\
    Redis.smembers k1 w' = (Ok (filter (fun b => b <> BlobPickle v) ms1), w') /\
    Redis.smembers k2 w' = (Ok ms2', w') /\ NoDup ms2' /\
    (forall b, b ∈ ms2' <-> b ∈ ms2 \/ b = BlobPickle v).
Proof.
  intros Hne H1 H2 Hnd2 Hin.
  destruct ms1 as [|m0 ms0]; [set_solver|].
  destruct (srem_step k1 (BlobPickle v) (m0 :: ms0) w H1) as (w1 & Hs & Hw1 & Ho1).
  assert (H2' : w_redis w1 !! k2 = Redis.set_at ms2) by (rewrite Ho1 by congruence; exact H2).
  destruct (sadd_step k2 (BlobPickle v) ms2 w1 H2' Hnd2) as (n & w2 & ms2' & Ha & Hw2 & Hnd2' & Hm2).
  exists w2, ms2'.
  assert (Hk1 : w_redis w2 !! k1 = Redis.set_at (filter (fun b => b <> BlobPickle v) (m0 :: ms0))).
  { pose proof (sadd_other k2 k1 (BlobPickle v) w1 Hne) as E. rewrite Ha in E. simpl in E.
    rewrite E. exact Hw1. }
  split; [|split; [by apply smembers_at|split; [by apply smembers_at|done]]].
  unfold RSet.move, Redis.smove. rewrite H1, H2. simpl Redis.set_at.
  assert (Hb : match Redis.set_at ms2 with None | Some (RVSet _) => true | Some _ => false end = true)
    by (by destruct ms2).
  rewrite Hb. simpl. rewrite decide_True by exact Hin.
  apply String.eqb_neq in Hne. rewrite Hne.
  unfold bind. rewrite Hs, Ha. reflexivity.
Qed.

Lemma rset_move_member_witness :
  exists w' ms2', RSet.move "b/s" "b/t" (PInt 1) (snd (RSet.add "b/s" (PInt 1) empty_world)) =
      (Ok 1%Z, w') /\
    Redis.smembers "b/s" w' = (Ok (filter (fun b => b <> BlobPickle (PInt 1)) [BlobPickle (PInt 1)]), w') /\
    Redis.smembers "b/t" w' = (Ok ms2', w') /\ NoDup ms2' /\
    (forall b, b ∈ ms2' <-> b ∈ [] \/ b = BlobPickle (PInt 1)).
Proof.
  apply rset_move_member; [discriminate | reflexivity | reflexivity | constructor | left].
Defined.

(** ** [ObjectSet] *)

Lemma lr_put_get (lib : PyLib) (S : store) (k : string) (v : pyval) (w : world) :
  (st_kind S = LocalObjectStore \/ st_kind S = RedisObjectStore) ->
  exists w', store_put lib S k v w = (Ok tt, w') /\ store_get lib S k w' = (Ok v, w').
Proof.
  unfold store_put, store_get. intros [Hk | Hk]; rewrite Hk.
  - unfold local_put, local_get, bind, Shelf.open_, Shelf.close, ret.
    destruct (w_shelves w !! PathLib.resolve (store_path S)) as [db|]; simpl;
      eexists; (split; [reflexivity|]); simpl; by rewrite !lookup_insert_eq.
  - unfold redis_put, redis_get, bind, Redis.set, Redis.get. simpl.
    eexists. split; [reflexivity|]. simpl. by rewrite lookup_insert_eq.
Qed.

Lemma oset_get_put (lib : PyLib) (S : store) (k : string) (o : list pyval) (w : world) :
  (st_kind S = LocalObjectStore \/ st_kind S = RedisObjectStore) ->
  exists w', store_put lib S k (PSet o) w = (Ok tt, w') /\ oset_get lib S k w' = (Ok o, w').
Proof.
  intros Hk. destruct (lr_put_get lib S k (PSet o) w Hk) as (w' & Hp & Hg).
  exists w'. split; [done|]. unfold oset_get. by rewrite Hg.
Qed.

Lemma set_add_in (py_eq : pyval -> pyval -> bool) (v : pyval) (o : list pyval) :
  (forall x, py_eq x x = true) -> hashable v = true ->
  exists o', set_add py_eq v o = Ok o' /\ existsb (py_eq v) o' = true.
Proof.
  intros Hrefl Hh. unfold set_add, py_in. rewrite Hh.
  destruct (existsb (py_eq v) o) eqn:E.
  - by exists o.
  - exists (o ++ [v])%list. split; [done|]. rewrite existsb_app. simpl.
    by rewrite Hrefl, orb_true_r.
Qed.

Lemma existsb_filter_neg (f : pyval -> bool) (o : list pyval) :
  existsb f (filter (fun x => negb (f x)) o) = false.
Proof.
  induction o as [|x o IH]; [done|]. rewrite filter_cons.
  destruct (decide (negb (f x))) as [Hd|Hd]; [|exact IH].
  simpl. destruct (f x); [done|]. exact IH.
Qed.

(** On a [LocalObjectStore] or [RedisObjectStore], [ObjectSet.add(v)] on a
    key that holds a set (or nothing) makes [v] a member: [is_member(v)]
    then answers [True] ([v] hashable, [==] reflexive). *)
Theorem oset_add_is_member (lib : PyLib) (py_eq : pyval -> pyval -> bool) (S : store)
    (key : string) (v : pyval) (o : list pyval) (w w1 : world) :
  (forall x, py_eq x x = true) ->
  (st_kind S = LocalObjectStore \/ st_kind S = RedisObjectStore) ->
  hashable v = true -> oset_get lib S key w = (Ok o, w1) ->
  fst ((let* _ := oset_add lib py_eq S key v in oset_is_member lib py_eq S key v) w) = Ok true.
Proof.
  intros Hrefl Hk Hh Hg.
  destruct (set_add_in py_eq v o Hrefl Hh) as (o' & Ha & Hin).
  destruct (oset_get_put lib S key o' w1 Hk) as (w2 & Hp & Hg2).
  unfold oset_add, oset_is_member, bind. rewrite Hg. simpl. rewrite Ha. simpl.
  rewrite Hp, Hg2. simpl. unfold py_in. by rewrite Hh, Hin.
Qed.

Lemma oset_add_is_member_witness :
  fst ((let* _ := oset_add lib_example (fun a b => bool_decide (a = b))
                    (Store RedisObjectStore "b" "" "" false) "k" (PInt 3) in
        oset_is_member lib_example (fun a b => bool_decide (a = b))
          (Store RedisObjectStore "b" "" "" false) "k" (PInt 3)) empty_world) = Ok true.
Proof.
  apply (oset_add_is_member _ _ _ _ _ [] empty_world empty_world).
  - intros x. by apply bool_decide_eq_true.
  - right. reflexivity.
  - reflexivity.
  - reflexivity.
Defined.

(** On a [LocalObjectStore] or [RedisObjectStore], [remove(v)] right after
    [add(v)] succeeds and leaves [v] out of the set: [is_member(v)] then
    answers [False]. *)
Theorem oset_add_remove (lib : PyLib) (py_eq : pyval -> pyval -> bool) (S : store)
    (key : string) (v : pyval) (o : list pyval) (w w1 : world) :
  (forall x, py_eq x x = true) ->
  (st_kind S = LocalObjectStore \/ st_kind S = RedisObjectStore) ->
  hashable v = true -> oset_get lib S key w = (Ok o, w1) ->
  fst ((let* _ := oset_add lib py_eq S key v in
        let* _ := oset_remove lib py_eq S key v in
        oset_is_member lib py_eq S key v) w) = Ok false.
Proof.
  intros Hrefl Hk Hh Hg.
  destruct (set_add_in py_eq v o Hrefl Hh) as (o' & Ha & Hin).
  destruct (oset_get_put lib S key o' w1 Hk) as (w2 & Hp & Hg2).
  set (o'' := filter (fun x => negb (py_eq v x)) o').
  destruct (oset_get_put lib S key o'' w2 Hk) as (w3 & Hp3 & Hg3).
  unfold oset_add, oset_remove, oset_is_member, bind. rewrite Hg. simpl. rewrite Ha. simpl.
  rewrite Hp, Hg2. simpl. unfold set_remove, py_in. rewrite Hh, Hin. simpl.
  fold o''. rewrite Hp3, Hg3. simpl. unfold o''. by rewrite existsb_filter_neg.
Qed.

Lemma oset_add_remove_witness :
  fst ((let* _ := oset_add lib_example (fun a b => bool_decide (a = b))
                    (Store LocalObjectStore "b" "" "/data" false) "k" (PStr "x") in
        let* _ := oset_remove lib_example (fun a b => bool_decide (a = b))
                    (Store LocalObjectStore "b" "" "/data" false) "k" (PStr "x") in
        oset_is_member lib_example (fun a b => bool_decide (a = b))
          (Store LocalObjectStore "b" "" "/data" false) "k" (PStr "x")) empty_world) = Ok false.
Proof.
  eapply (oset_add_remove _ _ _ _ _ []).
  - intros x. by apply bool_decide_eq_true.
  - left. reflexivity.
  - reflexivity.
  - reflexivity.
Defined.

(** ** [oscache] *)

Lemma bind_ok_inv {A B} (m : M A) (f : A -> M B) (w w' : world) (r : B) :
  bind m f w = (Ok r, w') -> exists a w0, m w = (Ok a, w0) /\ f a w0 = (Ok r, w').
Proof.
  unfold bind. destruct (m w) as [[a|e] w0]; [|congruence]. intros H. by exists a, w0.
Qed.

(** A [get] that succeeds changes nothing, and [exists] then answers
    something true. *)
Lemma store_get_ok (lib : PyLib) (S : store) (k : string) (w w' : world) (r : pyval) :
  store_get lib S k w = (Ok r, w') ->
  w' = w /\ exists e, store_exists S k w = (Ok e, w) /\ py_bool e = true.
Proof.
  unfold store_get, store_exists.
  destruct (st_kind S).
  1, 2: cbv [local_get local_exists bind Shelf.open_ ret raise]; intros H;
    destruct (w_shelves w !! PathLib.resolve (store_path S)) as [db|];
    [|rewrite lookup_empty in H; discriminate];
    destruct (db !! skey S k) eqn:E; [|discriminate]; injection H as _ <-;
    split; [done|]; eexists; (split; [reflexivity|]); done.
  - unfold fs_get, fs_exists, bind, FS.exists_.
    destruct (FS.exists_at w (fs_file_path S k)) eqn:E; [|done]. simpl.
    unfold FS.read_bytes. destruct (FS.is_dir_at w (fs_file_path S k)); [done|].
    destruct (FS.node w (fs_file_path S k)) as [[b|]|]; try done.
    destruct (pickle_loads b); [|done]. unfold ret. intros H. injection H as _ <-.
    split; [done|]. eexists. split; [reflexivity|]. done.
  - unfold s3_get, s3_exists, bind, S3.get_object.
    destruct (w_s3 w !! (st_bucket S, skey S k)) as [o|]; [|done]. simpl.
    destruct (s3_decode lib (skey S k) o); [|done]. unfold ret. intros H. injection H as _ <-.
    split; [done|]. eexists. split; [reflexivity|]. done.
  - cbv [redis_get redis_exists bind Redis.get Redis.exists_ ret raise lift]. intros H.
    destruct (w_redis w !! join_pathb S k) as [[b|l|l]|] eqn:E; try discriminate.
    destruct (pickle_loads b); [|discriminate]. injection H as _ <-.
    split; [done|]. eexists. split; [reflexivity|]. done.
Qed.

(** Once a call through [oscache] has returned [r], every later call with
    the same key returns [r] without running the function and without
    changing anything, whatever the function and for every kind of store. *)
Theorem oscache_hit (lib : PyLib) (S : store) (ck : string) (f f' : M pyval)
    (w w' : world) (r : pyval) :
  oscache lib S ck f w = (Ok r, w') -> oscache lib S ck f' w' = (Ok r, w').
Proof.
  unfold oscache. intros H.
  apply bind_ok_inv in H as (e & w0 & _ & H).
  apply bind_ok_inv in H as (u & w1 & _ & H).
  destruct (store_get_ok lib S _ _ _ _ H) as [-> (e' & He & Ht)].
  unfold bind. rewrite He, Ht. exact H.
Qed.

Lemma oscache_hit_witness :
  oscache lib_example (Store RedisObjectStore "b" "" "" false) "f" (ret (PInt 6))
    (snd (oscache lib_example (Store RedisObjectStore "b" "" "" false) "f" (ret (PInt 5))
            empty_world)) =
  (Ok (PInt 5), snd (oscache lib_example (Store RedisObjectStore "b" "" "" false) "f"
                       (ret (PInt 5)) empty_world)).
Proof. apply (oscache_hit _ _ _ (ret (PInt 5)) _ empty_world). reflexivity. Defined.

(** With a [LocalLargeObjectStore] as storage, a call whose key is not
    stored yet, of a function that leaves the [shelve] databases alone,
    always raises ([KeyError] once the function has returned): the value is
    never cached and never returned. *)
Theorem oscache_large_raises (lib : PyLib) (S : store) (ck : string) (f : M pyval) (w : world) :
  st_kind S = LocalLargeObjectStore ->
  (forall w0, w_shelves (snd (f w0)) = w_shelves w0) ->
  absent_entry S w ("oscache-" ++ ck) ->
  exists e, fst (oscache lib S ck f w) = Err e.
Proof.
  intros Hk Hsh Hab. unfold absent_entry in Hab. rewrite Hk in Hab.
  unfold oscache, store_exists, store_put, store_get. rewrite Hk.
  set (key := ("oscache-" ++ ck)%string). fold key in Hab.
  assert (Hex : exists w1, (let* b := local_exists S key in ret (PBool b)) w =
                             (Ok (PBool false), w1) /\
            match w_shelves w1 !! PathLib.resolve (store_path S) with
            | Some db => db !! skey S key = None
            | None => True
            end).
  { unfold local_exists, bind, Shelf.open_.
    destruct (w_shelves w !! PathLib.resolve (store_path S)) as [db|] eqn:E.
    - exists w. unfold ret. simpl. rewrite Hab. split; [done|]. by rewrite E.
    - eexists. split; [reflexivity|]. simpl. by rewrite lookup_insert_eq, lookup_empty. }
  destruct Hex as (w1 & Hex & Hab1).
  unfold bind at 1. rewrite Hex. simpl.
  unfold bind. destruct (f w1) as [[v|e] w2] eqn:Ef; [|by eexists].
  pose proof (Hsh w1) as Hs2. rewrite Ef in Hs2. simpl in Hs2.
  pose proof (large_put_shelves lib S key v w2) as Hs3.
  destruct (large_put lib S key v w2) as [[[]|e] w3]; [|by eexists].
  simpl in Hs3. exists KeyError. apply local_get_absent. by rewrite Hs3, Hs2.
Qed.

Lemma oscache_large_raises_witness :
  exists e, fst (oscache lib_example (Store LocalLargeObjectStore "b" "" "/data" false) "f"
                   (ret (PInt 5)) empty_world) = Err e.
Proof. apply oscache_large_raises; reflexivity || (intros; reflexivity) || exact I. Defined.

(** ** The key namespace: [join_path] *)

Module JoinPathFacts.

Lemma str_app_assoc (a b c : string) : (a ++ b) ++ c = a ++ (b ++ c).
Proof. induction a as [|x a IH]; [done|]. exact (f_equal (String x) IH). Qed.

Lemma lstrip_length (c : ascii) (s : string) : String.length (PyStr.lstrip c s) <= String.length s.
Proof.
  induction s as [|a s IH]; [done|]. simpl.
  destruct (Ascii.eqb a c); simpl; lia.
Qed.

Lemma lstrip_idem (c : ascii) (s : string) : PyStr.lstrip c (PyStr.lstrip c s) = PyStr.lstrip c s.
Proof.
  induction s as [|a s IH]; [done|]. simpl.
  destruct (Ascii.eqb a c) eqn:E; [exact IH|]. simpl. by rewrite E.
Qed.

Lemma lstrip_first (c a : ascii) (s : string) :
  PyStr.lstrip c (String a s) = String a s -> Ascii.eqb a c = false.
Proof.
  simpl. destruct (Ascii.eqb a c); [|done]. intros H.
  pose proof (lstrip_length c s) as Hl. rewrite H in Hl. simpl in Hl. lia.
Qed.

Lemma rstrip_cons (c a : ascii) (s : string) :
  PyStr.rstrip c (String a s) =
  match PyStr.rstrip c s with
  | EmptyString => if Ascii.eqb a c then EmptyString else String a EmptyString
  | r => String a r
  end.
Proof. reflexivity. Qed.

Lemma rstrip_idem (c : ascii) (s : string) : PyStr.rstrip c (PyStr.rstrip c s) = PyStr.rstrip c s.
Proof.
  induction s as [|a s IH]; [done|]. simpl.
  destruct (PyStr.rstrip c s) as [|b r] eqn:E.
  - destruct (Ascii.eqb a c) eqn:Ea; [done|]. simpl. by rewrite Ea.
  - rewrite rstrip_cons, IH. done.
Qed.

Lemma rstrip_keeps_first (c : ascii) (s : string) :
  PyStr.lstrip c s = s -> PyStr.lstrip c (PyStr.rstrip c s) = PyStr.rstrip c s.
Proof.
  destruct s as [|a s]; [done|]. intros H. apply lstrip_first in H. simpl.
  destruct (PyStr.rstrip c s) as [|b r].
  - rewrite H. simpl. by rewrite H.
  - simpl. by rewrite H.
Qed.

Lemma rstrip_app (c : ascii) (x y : string) :
  PyStr.rstrip c y <> "" -> PyStr.rstrip c (x ++ y) = x ++ PyStr.rstrip c y.
Proof.
  intros Hy. induction x as [|a x IH]; [done|]. simpl. rewrite IH.
  destruct x; simpl; [|done]. destruct (PyStr.rstrip c y); [done|]. done.
Qed.

Lemma lstrip_app (c : ascii) (x y : string) :
  x <> "" -> PyStr.lstrip c x = x -> PyStr.lstrip c (x ++ y) = x ++ y.
Proof.
  destruct x as [|a x]; [done|]. intros _ H. apply lstrip_first in H. simpl. by rewrite H.
Qed.

(** A piece of a joined path: not empty, no slash at either end. *)
Definition clean (p : string) : Prop :=
  p <> "" /\ PyStr.lstrip slash p = p /\ PyStr.rstrip slash p = p.

Lemma join_clean (P : list string) :
  P <> [] -> (forall p, p ∈ P -> clean p) -> clean (PyStr.join "/" P).
Proof.
  induction P as [|x P IH]; [done|]. intros _ HP.
  destruct P as [|y P].
  - apply HP. set_solver.
  - destruct (HP x) as (Hx1 & Hx2 & Hx3); [set_solver|].
    destruct (IH ltac:(done)) as (HJ1 & HJ2 & HJ3); [intros p Hp; apply HP; set_solver|].
    change (PyStr.join "/" (x :: y :: P)) with (x ++ "/" ++ PyStr.join "/" (y :: P)).
    revert HJ1 HJ2 HJ3. generalize (PyStr.join "/" (y :: P)). intros J HJ1 HJ2 HJ3.
    split; [destruct x; done|]. split.
    + by apply lstrip_app.
    + assert (Hs : PyStr.rstrip slash ("/" ++ J) = "/" ++ J).
      { change ("/" ++ J) with (String slash J). rewrite rstrip_cons, HJ3.
        destruct J; done. }
      rewrite rstrip_app; [by rewrite Hs|]. rewrite Hs. done.
Qed.

Lemma strip_clean (s : string) : truthy (PyStr.strip slash s) = true -> clean (PyStr.strip slash s).
Proof.
  intros Ht. unfold PyStr.strip. split; [|split].
  - intros E. unfold PyStr.strip in Ht. rewrite E in Ht. discriminate.
  - apply rstrip_keeps_first, lstrip_idem.
  - apply rstrip_idem.
Qed.

Lemma clean_strip (s : string) : clean s -> PyStr.strip slash s = s.
Proof. intros (_ & H1 & H2). unfold PyStr.strip. by rewrite H1, H2. Qed.

(** The pieces [join_path] joins. *)
Definition pieces (prefix : string) (args : list string) : list string :=
  filter truthy (map (PyStr.strip slash) (filter truthy (prefix :: args))).

Lemma pieces_clean (prefix : string) (args : list string) (p : string) :
  p ∈ pieces prefix args -> clean p.
Proof.
  unfold pieces. intros Hp. apply list_elem_of_filter in Hp as [Ht Hp].
  apply list_elem_of_In, in_map_iff in Hp as (s & <- & _). apply strip_clean. by apply Is_true_eq_true.
Qed.

Lemma join_app (P Q : list string) :
  P <> [] -> PyStr.join "/" (PyStr.join "/" P :: Q) = PyStr.join "/" (P ++ Q).
Proof.
  induction P as [|x P IH]; [done|]. intros _.
  destruct P as [|y P].
  - done.
  - destruct Q as [|z Q].
    + by rewrite app_nil_r.
    + change (PyStr.join "/" (PyStr.join "/" (x :: y :: P) :: z :: Q)) with
        (PyStr.join "/" (x :: y :: P) ++ "/" ++ PyStr.join "/" (z :: Q)).
      change (PyStr.join "/" ((x :: y :: P) ++ z :: Q)%list) with
        (x ++ "/" ++ PyStr.join "/" ((y :: P) ++ z :: Q)%list).
      rewrite <- IH by done.
      change (PyStr.join "/" (x :: y :: P)) with (x ++ "/" ++ PyStr.join "/" (y :: P)).
      change (PyStr.join "/" (PyStr.join "/" (y :: P) :: z :: Q)) with
        (PyStr.join "/" (y :: P) ++ "/" ++ PyStr.join "/" (z :: Q)).
      rewrite !str_app_assoc. done.
Qed.

Lemma pieces_app (prefix : string) (xs ys : list string) :
  pieces prefix (xs ++ ys) = (pieces prefix xs ++ pieces "" ys)%list.
Proof.
  unfold pieces. change (prefix :: xs ++ ys)%list with ((prefix :: xs) ++ ys)%list.
  rewrite filter_app, map_app, filter_app. f_equal.
Qed.

Lemma join_path_pieces (prefix : string) (args : list string) :
  join_path prefix args = PyStr.join "/" (pieces prefix args).
Proof. reflexivity. Qed.

Lemma pieces_of_join (P Q : list string) :
  P <> [] -> (forall p, p ∈ P -> clean p) ->
  pieces (PyStr.join "/" P) Q = PyStr.join "/" P :: pieces "" Q.
Proof.
  intros HP Hc. pose proof (join_clean P HP Hc) as HJ.
  unfold pieces. rewrite filter_cons_True.
  2:{ destruct HJ as [Hn _]. unfold truthy. destruct (PyStr.join "/" P); done. }
  simpl. rewrite clean_strip by done.
  rewrite filter_cons_True.
  2:{ destruct HJ as [Hn _]. unfold truthy. destruct (PyStr.join "/" P); done. }
  done.
Qed.

Lemma join_path_app (prefix : string) (xs ys : list string) :
  join_path (join_path prefix xs) ys = join_path prefix (xs ++ ys).
Proof.
  rewrite !join_path_pieces, pieces_app.
  destruct (pieces prefix xs) as [|q P] eqn:E.
  - reflexivity.
  - rewrite pieces_of_join; [|done|].
    + apply join_app. done.
    + intros z Hz. apply (pieces_clean prefix xs). by rewrite E.
Qed.

End JoinPathFacts.

(** [sub] on a [RedisObjectStore], or on an [S3ObjectStore] whose bucket
    name has no slash, composes: [S.sub(a..).sub(b..)] is the handle
    [S.sub(a.., b..)] for non-empty argument lists, because [join_path] of
    a joined path adds the new pieces to it. *)
Theorem sub_chain_joins (dflt : kind) (S : store) (xs ys : list string) (w : world) :
  (st_kind S = RedisObjectStore \/
   (st_kind S = S3ObjectStore /\ PyStr.has_char slash (st_bucket S) = false)) ->
  xs <> [] -> ys <> [] ->
  (let* A := store_sub dflt S xs in store_sub dflt A ys) w = store_sub dflt S (xs ++ ys) w.
Proof.
  destruct S as [k b p pa hc]; simpl. intros Hk Hxs Hys.
  destruct xs as [|x xs]; [done|]. destruct ys as [|y ys]; [done|].
  destruct Hk as [-> | [-> Hb]].
  - unfold store_sub; simpl. cbv [bind ret]. simpl.
    rewrite JoinPathFacts.join_path_app. done.
  - unfold store_sub; simpl. rewrite Hb.
    destruct (objectstore_init b) eqn:Ei; cbv [bind lift ret raise]; rewrite ?Ei; simpl;
      [|done].
    rewrite Hb, Ei. simpl. rewrite JoinPathFacts.join_path_app. done.
Qed.

Lemma sub_chain_joins_witness :
  (st_kind (Store S3ObjectStore "b" "p/" "" false) = RedisObjectStore \/
   (st_kind (Store S3ObjectStore "b" "p/" "" false) = S3ObjectStore /\
    PyStr.has_char slash (st_bucket (Store S3ObjectStore "b" "p/" "" false)) = false)) /\
  (let* A := store_sub FSObjectStore (Store S3ObjectStore "b" "p/" "" false) ["x/"] in
   store_sub FSObjectStore A ["/y"; "z"]) empty_world =
  store_sub FSObjectStore (Store S3ObjectStore "b" "p/" "" false) ["x/"; "/y"; "z"] empty_world.
Proof.
  split; [right; split; reflexivity|].
  apply (sub_chain_joins FSObjectStore (Store S3ObjectStore "b" "p/" "" false)
           ["x/"] ["/y"; "z"] empty_world); [right; split; reflexivity|done|done].
Defined.

Lemma s3_put_get_decode (lib : PyLib) (S : store) (k : string) (v : pyval) (w : world) :
  fst ((let* _ := s3_put lib S k v in s3_get lib S k) w) =
  s3_decode lib (skey S k) (S3Obj (to_bytes lib v).2 None (to_bytes lib v).1.1).
Proof.
  unfold s3_put. destruct (to_bytes lib v) as [[b n] ct].
  cbv [bind s3_get S3.put_object S3.get_object]. simpl.
  rewrite lookup_insert_eq. cbv [lift ret raise]. by destruct (s3_decode _ _ _).
Qed.

(** On an [S3ObjectStore], [put(k, v)] then [get(k)] returns a [str]
    unchanged, and [bytes] unchanged unless the stored key ends in [".gz"],
    in which case they come back gunzipped (or [get] raises the exception
    [gzip.decompress] raises on them); any other value comes back as
    [json.loads(json.dumps(v))] when [json.dumps] accepts it ([ValueError]
    if that text does not parse) and unchanged, through [pickle], when it
    does not. *)
Theorem s3_put_get_roundtrip (lib : PyLib) (S : store) (k : string) (v : pyval) (w : world) :
  st_kind S = S3ObjectStore ->
  fst ((let* _ := store_put lib S k v in store_get lib S k) w) =
  match v with
  | PStr s => Ok (PStr s)
  | PBytes b =>
      if PyStr.endswith ".gz" (skey S k) then
        match gzip_decompress lib b with Ok b' => Ok (PBytes b') | Err e => Err e end
      else Ok (PBytes b)
  | _ =>
      match json_dumps lib v with
      | Some t => match json_loads lib t with Some v' => Ok v' | None => Err ValueError end
      | None => Ok v
      end
  end.
Proof.
  intros Hk. unfold store_put, store_get. rewrite Hk.
  rewrite s3_put_get_decode.
  destruct v; simpl; try reflexivity;
    try (destruct (json_dumps lib _); reflexivity).
Qed.

Lemma s3_put_get_roundtrip_witness :
  st_kind (Store S3ObjectStore "b" "p" "" false) = S3ObjectStore /\
  fst ((let* _ := store_put lib_example (Store S3ObjectStore "b" "p" "" false) "k" (PStr "v") in
        store_get lib_example (Store S3ObjectStore "b" "p" "" false) "k") empty_world) =
  Ok (PStr "v").
Proof.
  split; [reflexivity|].
  exact (s3_put_get_roundtrip lib_example (Store S3ObjectStore "b" "p" "" false) "k" (PStr "v")
           empty_world eq_refl).
Defined.

Lemma write_bytes_ok (p : list string) (b : blob) (w w' : world) :
  FS.write_bytes p b w = (Ok tt, w') ->
  FS.read_bytes p w' = (Ok b, w') /\ FS.exists_at w' p = true.
Proof.
  unfold FS.write_bytes.
  destruct (FS.is_dir_at w p) eqn:Hd; [congruence|].
  destruct (negb (FS.exists_at w (FS.parent p))); [congruence|].
  destruct (negb (FS.is_dir_at w (FS.parent p))); [congruence|].
  intros [= <-]. unfold FS.is_dir_at in Hd. apply orb_false_iff in Hd as [Ha _].
  unfold FS.read_bytes, FS.is_dir_at, FS.exists_at, FS.node. simpl.
  rewrite lookup_insert_eq, Ha. simpl. split; [done|].
  done.
Qed.

(** On an [FSObjectStore], a [put(k, v)] that returns is followed by a
    [get(k)] that returns [v]: [put] writes [pickle.dumps(v)] to the key's
    file and [get] reads and unpickles it. *)
Theorem fs_put_get_roundtrip (lib : PyLib) (S : store) (k : string) (v : pyval) (w w' : world) :
  st_kind S = FSObjectStore ->
  store_put lib S k v w = (Ok tt, w') ->
  store_get lib S k w' = (Ok v, w').
Proof.
  intros Hk. unfold store_put, store_get. rewrite Hk. unfold fs_put, fs_get.
  intros H. apply bind_ok_inv in H as (e & w0 & _ & H).
  apply bind_ok_inv in H as ([] & w1 & _ & H).
  apply write_bytes_ok in H as [Hr He].
  cbv [bind fs_exists FS.exists_]. rewrite He. simpl. rewrite Hr. reflexivity.
Qed.

Lemma fs_put_get_roundtrip_witness :
  st_kind (Store FSObjectStore "b" "" "/data" false) = FSObjectStore /\
  store_put lib_example (Store FSObjectStore "b" "" "/data" false) "k" (PInt 1) empty_world =
    (Ok tt, snd (store_put lib_example (Store FSObjectStore "b" "" "/data" false) "k" (PInt 1)
                   empty_world)) /\
  store_get lib_example (Store FSObjectStore "b" "" "/data" false) "k"
    (snd (store_put lib_example (Store FSObjectStore "b" "" "/data" false) "k" (PInt 1)
            empty_world)) =
  (Ok (PInt 1), snd (store_put lib_example (Store FSObjectStore "b" "" "/data" false) "k" (PInt 1)
                      empty_world)).
Proof.
  assert (H : store_put lib_example (Store FSObjectStore "b" "" "/data" false) "k" (PInt 1)
                empty_world =
              (Ok tt, snd (store_put lib_example (Store FSObjectStore "b" "" "/data" false) "k"
                             (PInt 1) empty_world))) by (vm_compute; reflexivity).
  split; [reflexivity|]. split; [exact H|].
  exact (fs_put_get_roundtrip lib_example (Store FSObjectStore "b" "" "/data" false) "k" (PInt 1)
           empty_world _ eq_refl H).
Defined.

(** A [put] that returns makes [exists] answer a true value ([True], or
    [1] on [RedisObjectStore]) on every backend but
    [LocalLargeObjectStore], whose [put] stores nothing in its database. *)
Theorem put_then_exists (lib : PyLib) (S : store) (k : string) (v : pyval) (w w' : world) :
  st_kind S <> LocalLargeObjectStore ->
  store_put lib S k v w = (Ok tt, w') ->
  exists e, store_exists S k w' = (Ok e, w') /\ py_bool e = true.
Proof.
  intros Hk. unfold store_put, store_exists.
  destruct (st_kind S) eqn:E; [| done | | |]; intros H.
  - unfold local_put in H. apply bind_ok_inv in H as (db & w0 & _ & H).
    unfold Shelf.close in H. injection H as <-.
    exists (PBool true). split; [|done].
    cbv [bind ret local_exists Shelf.open_]. simpl. rewrite lookup_insert_eq. simpl.
    rewrite lookup_insert_eq. done.
  - unfold fs_put in H. apply bind_ok_inv in H as (e & w0 & _ & H).
    apply bind_ok_inv in H as ([] & w1 & _ & H).
    apply write_bytes_ok in H as [_ He].
    exists (PBool true). split; [|done].
    cbv [bind ret fs_exists FS.exists_]. by rewrite He.
  - unfold s3_put in H. destruct (to_bytes lib v) as [[b n] ct].
    unfold S3.put_object in H. injection H as <-.
    exists (PBool true). split; [|done].
    cbv [bind ret s3_exists S3.get_object]. simpl. rewrite lookup_insert_eq. done.
  - unfold redis_put, Redis.set in H. injection H as <-.
    exists (PInt 1). split; [|done].
    cbv [bind ret redis_exists Redis.exists_]. simpl. rewrite lookup_insert_eq. done.
Qed.

Lemma put_then_exists_witness :
  st_kind (Store RedisObjectStore "b" "" "" false) <> LocalLargeObjectStore /\
  store_put lib_example (Store RedisObjectStore "b" "" "" false) "k" PNone empty_world =
    (Ok tt, snd (store_put lib_example (Store RedisObjectStore "b" "" "" false) "k" PNone
                   empty_world)) /\
  exists e, store_exists (Store RedisObjectStore "b" "" "" false) "k"
              (snd (store_put lib_example (Store RedisObjectStore "b" "" "" false) "k" PNone
                      empty_world)) =
            (Ok e, snd (store_put lib_example (Store RedisObjectStore "b" "" "" false) "k" PNone
                          empty_world)) /\ py_bool e = true.
Proof.
  assert (H : store_put lib_example (Store RedisObjectStore "b" "" "" false) "k" PNone
                empty_world =
              (Ok tt, snd (store_put lib_example (Store RedisObjectStore "b" "" "" false) "k"
                             PNone empty_world))) by reflexivity.
  split; [discriminate|]. split; [exact H|].
  exact (put_then_exists lib_example (Store RedisObjectStore "b" "" "" false) "k" PNone
           empty_world _ ltac:(discriminate) H).
Defined.

(** A joined key never starts with ["/"] and is left unchanged by
    [strip("/")]: [join_path] always returns a normalised key. *)
Theorem join_path_normal (prefix : string) (args : list string) :
  PyStr.startswith "/" (join_path prefix args) = false /\
  PyStr.strip slash (join_path prefix args) = join_path prefix args.
Proof.
  rewrite JoinPathFacts.join_path_pieces.
  destruct (JoinPathFacts.pieces prefix args) as [|q P] eqn:E; [done|].
  assert (Hc : JoinPathFacts.clean (PyStr.join "/" (q :: P))).
  { apply JoinPathFacts.join_clean; [done|]. intros z Hz.
    apply (JoinPathFacts.pieces_clean prefix args). by rewrite E. }
  split; [|by apply JoinPathFacts.clean_strip].
  destruct Hc as (Hn & Hl & _). revert Hn Hl.
  destruct (PyStr.join "/" (q :: P)) as [|a s]; [done|]. intros _ Hl.
  apply JoinPathFacts.lstrip_first in Hl. cbn [PyStr.startswith].
  rewrite Ascii.eqb_sym. unfold slash in Hl. rewrite Hl. done.
Qed.
